(** * The conversational task-management core of physical-ai-todo

    A shallow embedding of

      - [backend/app/crud.py]               (task store, conversation store),
      - [backend/app/mcp/schemas.py]        (tool parameter schemas),
      - [backend/app/mcp/tools.py]          (the five tools and their registry),
      - [backend/app/chat/conversation.py]  (conversation context),
      - [backend/app/chat/agent.py]         (tool executor and agent loop),

    followed by the properties of the specification that concern them.

    Conventions of the embedding.

      - Python [str] is [string], one character per element; [str.lower] is
        taken on the ASCII letters.
      - Python [int] is [Z]; SQL [LIMIT]/[OFFSET] counts are [nat].
      - A Python [dict] with string keys is a [gmap string pyval].
      - A table is the list of its rows in insertion order; the database
        session is passed explicitly as a [Session] value.
      - A Python function that may raise returns [string + A]: [inl e] is a
        raised exception whose [str(e)] is [e].
      - Library calls whose code is not part of the repository (the model
        client, [json], pydantic's conversions, [isoformat]) are section
        variables.
      - Console output ([print]) is not part of the model. *)

From Stdlib Require Import ZArith String Ascii List Bool Lia Sorted Permutation.
From stdpp Require Import base option list sorting strings gmap pretty.

Open Scope string_scope.
Open Scope list_scope.
Open Scope Z_scope.

(** ** Text *)

Module Text.

(** [c.lower()] on one character: the letters [A]..[Z] move to [a]..[z]. *)
Definition lower_ascii (c : ascii) : ascii :=
  let n := nat_of_ascii c in
  if ((65 <=? n) && (n <=? 90))%nat then ascii_of_nat (n + 32) else c.

(** [s.lower()] *)
Fixpoint lower (s : string) : string :=
  match s with
  | EmptyString => EmptyString
  | String c s' => String (lower_ascii c) (lower s')
  end.

(** [needle in hay] on Python strings. *)
Fixpoint contains (needle hay : string) : bool :=
  String.prefix needle hay ||
  match hay with
  | EmptyString => false
  | String _ hay' => contains needle hay'
  end.

(** SQL [LIKE]: [%] stands for any run of characters, [_] for exactly one;
    no escape character is set. *)
Fixpoint like (pattern : string) : string -> bool :=
  match pattern with
  | EmptyString => fun s => match s with EmptyString => true | _ => false end
  | String p pattern' =>
      if Ascii.eqb p "%" then
        fix any_run (s : string) : bool :=
          like pattern' s ||
          match s with
          | EmptyString => false
          | String _ s' => any_run s'
          end
      else if Ascii.eqb p "_" then
        fun s => match s with
                 | EmptyString => false
                 | String _ s' => like pattern' s'
                 end
      else
        fun s => match s with
                 | EmptyString => false
                 | String c s' => Ascii.eqb p c && like pattern' s'
                 end
  end.

(** [column.ilike(pattern)]: [LIKE] without regard to letter case. *)
Definition ilike (s pattern : string) : bool := like (lower pattern) (lower s).

(** ["sep".join(parts)] *)
Fixpoint join (sep : string) (parts : list string) : string :=
  match parts with
  | [] => ""
  | [p] => p
  | p :: rest => p +:+ sep +:+ join sep rest
  end.

(** The line feed of ["\n"]. *)
Definition nl : string := String (ascii_of_nat 10) EmptyString.

(** The double quote character. *)
Definition dq : string := String (ascii_of_nat 34) EmptyString.

End Text.

(** ** Data model ([app/models.py]) *)

Inductive Priority := LOW | MEDIUM | HIGH.

Definition Priority_value (p : Priority) : string :=
  match p with LOW => "low" | MEDIUM => "medium" | HIGH => "high" end.

(** Python values that travel through tool arguments and result envelopes. *)
#[warnings="-register-all"]
Inductive pyval :=
| PNone
| PBool (b : bool)
| PInt (z : Z)
| PStr (s : string)
| PList (l : list pyval)
| PDict (d : list (string * pyval)).

(** [class Task]: the columns the conversational core reads or writes.
    [id] is the primary key.  Timestamps are microseconds on the store's
    clock. *)
Module Task.
Record t := mk {
  id : Z;
  user_id : Z;
  title : string;
  description : option string;
  completed : bool;
  priority : Priority;
  created_at : Z;
  updated_at : Z
}.
End Task.

(** [class Notification] *)
Module Notification.
Record t := mk {
  id : Z;
  user_id : Z;
  task_id : Z;
  type : string;
  title : string;
  message : string;
  is_read : bool;
  created_at : Z
}.
End Notification.

(** [class ConversationMessage] *)
Module ConversationMessage.
Record t := mk {
  id : Z;
  conversation_id : Z;
  user_id : Z;
  role : string;
  content : string;
  tool_calls : option pyval;
  created_at : Z
}.
End ConversationMessage.

(** The database behind a SQLModel [Session]: three tables, their identity
    sequences, and the clock read by [datetime.utcnow()].  Foreign keys are
    not enforced by the store. *)
Record Session := mkSession {
  tasks : list Task.t;
  notifications : list Notification.t;
  conversation_messages : list ConversationMessage.t;
  task_seq : Z;
  notification_seq : Z;
  message_seq : Z;
  clock : Z
}.

Definition with_tasks (s : Session) (ts : list Task.t) : Session :=
  mkSession ts (notifications s) (conversation_messages s)
            (task_seq s) (notification_seq s) (message_seq s) (clock s).

(** [datetime.utcnow()]: successive readings increase. *)
Definition utcnow (s : Session) : Z * Session :=
  (clock s,
   mkSession (tasks s) (notifications s) (conversation_messages s)
             (task_seq s) (notification_seq s) (message_seq s) (clock s + 1)).

(** ** SQL building blocks *)

Section OrderBy.
Context {A : Type} (key : A -> Z).

(** Insertion into a list sorted by descending [key]; a row goes behind
    the rows whose key is at least its own. *)
Fixpoint insert_desc (x : A) (l : list A) : list A :=
  match l with
  | [] => [x]
  | y :: l' => if key y <? key x then x :: l else y :: insert_desc x l'
  end.

(** [ORDER BY key DESC] *)
Definition order_by_desc (l : list A) : list A := foldr insert_desc [] l.

End OrderBy.

(** [query.limit(limit).offset(offset)] *)
Definition limit_offset {A : Type} (limit offset : nat) (l : list A) : list A :=
  firstn limit (skipn offset l).

(** ** Task store ([app/crud.py]) *)

(** [class TaskCreate], as far as [add_task] fills it in. *)
Record TaskCreate := mkTaskCreate {
  tc_title : string;
  tc_description : option string;
  tc_priority : Priority
}.

(** [class TaskPatch], with the fields the tools set: [None] is a field that
    is unset (or set to [None]), which [patch_task] leaves alone. *)
Record TaskPatch := mkTaskPatch {
  tp_title : option string;
  tp_description : option string;
  tp_completed : option bool;
  tp_priority : option Priority
}.

(** [create_task(task_data, session, user_id)] *)
Definition create_task (task_data : TaskCreate) (session : Session) (user_id : Z)
  : Task.t * Session :=
  let '(created_at, s1) := utcnow session in
  let '(updated_at, s2) := utcnow s1 in
  let db_task :=
    Task.mk (task_seq s2 + 1) user_id (tc_title task_data)
           (tc_description task_data) false (tc_priority task_data)
           created_at updated_at in
  (db_task,
   mkSession (tasks s2 ++ [db_task]) (notifications s2) (conversation_messages s2)
             (task_seq s2 + 1) (notification_seq s2) (message_seq s2) (clock s2)).

(** The [WHERE] clause that [list_tasks] builds. *)
Definition list_tasks_where (user_id : Z) (search : option string)
    (completed : option bool) (priority : option string) (t : Task.t) : bool :=
  (Task.user_id t =? user_id)
  && match search with
     | Some ((String _ _) as search) =>
         let search_pattern := "%" +:+ search +:+ "%" in
         Text.ilike (Task.title t) search_pattern
         || match Task.description t with
            | Some d => Text.ilike d search_pattern
            | None => false
            end
     | _ => true
     end
  && match completed with
     | Some c => Bool.eqb (Task.completed t) c
     | None => true
     end
  && match priority with
     | Some ((String _ _) as priority) => String.eqb (Priority_value (Task.priority t)) priority
     | _ => true
     end.

(** [list_tasks(session, user_id, limit, offset, search, completed, priority)]
    with [tags=None], [sort="created_at"], [order="desc"], the values every
    caller in the core leaves at their defaults.  Returns the page and the
    total count before pagination. *)
Definition list_tasks (session : Session) (user_id : Z) (limit offset : nat)
    (search : option string) (completed : option bool) (priority : option string)
  : list Task.t * Z :=
  let query := List.filter (list_tasks_where user_id search completed priority)
                           (tasks session) in
  let total := Z.of_nat (length query) in
  (limit_offset limit offset (order_by_desc Task.created_at query), total).

(** [get_task(task_id, session)] *)
Definition get_task (task_id : Z) (session : Session) : option Task.t :=
  List.find (fun t => Task.id t =? task_id) (tasks session).

(** The assignments [patch_task] makes on the loaded row. *)
Definition apply_patch (task_data : TaskPatch) (updated_at : Z) (t : Task.t) : Task.t :=
  Task.mk (Task.id t) (Task.user_id t)
         (default (Task.title t) (tp_title task_data))
         (match tp_description task_data with
          | Some d => Some d
          | None => Task.description t
          end)
         (default (Task.completed t) (tp_completed task_data))
         (default (Task.priority t) (tp_priority task_data))
         (Task.created_at t) updated_at.

(** Writing a row back under its primary key. *)
Definition store_task (t' : Task.t) (ts : list Task.t) : list Task.t :=
  map (fun t => if Task.id t =? Task.id t' then t' else t) ts.

(** [patch_task(task_id, task_data, session)] *)
Definition patch_task (task_id : Z) (task_data : TaskPatch) (session : Session)
  : option Task.t * Session :=
  match get_task task_id session with
  | None => (None, session)
  | Some db_task =>
      let '(updated_at, s1) := utcnow session in
      let db_task' := apply_patch task_data updated_at db_task in
      (Some db_task', with_tasks s1 (store_task db_task' (tasks s1)))
  end.

(** [delete_task(task_id, session)]; deleting a task through the session
    cascades to the notifications that refer to it
    ([Task.notifications], ["cascade": "all, delete-orphan"]). *)
Definition delete_task (task_id : Z) (session : Session) : bool * Session :=
  match get_task task_id session with
  | None => (false, session)
  | Some db_task =>
      (true,
       mkSession
         (List.filter (fun t => negb (Task.id t =? Task.id db_task)) (tasks session))
         (List.filter (fun n => negb (Notification.task_id n =? Task.id db_task))
                      (notifications session))
         (conversation_messages session)
         (task_seq session) (notification_seq session) (message_seq session)
         (clock session))
  end.

(** [session.add(Notification(..., created_at=datetime.utcnow())); session.commit()] *)
Definition add_notification (user_id task_id : Z) (type title message : string)
    (session : Session) : Session :=
  let '(created_at, s1) := utcnow session in
  let n := Notification.mk (notification_seq s1 + 1) user_id task_id
                          type title message false created_at in
  mkSession (tasks s1) (notifications s1 ++ [n]) (conversation_messages s1)
            (task_seq s1) (notification_seq s1 + 1) (message_seq s1) (clock s1).

(** ** Conversation store ([app/crud.py]) *)

(** [create_conversation_message(db, conversation_id, user_id, role, content, tool_calls)] *)
Definition create_conversation_message (db : Session) (conversation_id user_id : Z)
    (role content : string) (tool_calls : option pyval)
  : ConversationMessage.t * Session :=
  let '(created_at, s1) := utcnow db in
  let message :=
    ConversationMessage.mk (message_seq s1 + 1) conversation_id user_id
                          role content tool_calls created_at in
  (message,
   mkSession (tasks s1) (notifications s1) (conversation_messages s1 ++ [message])
             (task_seq s1) (notification_seq s1) (message_seq s1 + 1) (clock s1)).

(** [get_conversation_history(db, conversation_id, limit)]: newest first up
    to [limit], then reversed. *)
Definition get_conversation_history (db : Session) (conversation_id : Z) (limit : nat)
  : list ConversationMessage.t :=
  let messages :=
    firstn limit
      (order_by_desc ConversationMessage.created_at
         (List.filter (fun m => ConversationMessage.conversation_id m =? conversation_id)
                      (conversation_messages db))) in
  rev messages.

(** The default of the [limit] parameter. *)
Definition default_history_limit : nat := 20.

(** ** Tool parameter schemas ([app/mcp/schemas.py]) *)

Inductive Status := ALL | PENDING | COMPLETED.

Definition Status_value (st : Status) : string :=
  match st with ALL => "all" | PENDING => "pending" | COMPLETED => "completed" end.

Module AddTaskSchema.
Record t := mk {
  user_id : Z;
  title : string;                (* min_length=1, max_length=500 *)
  description : string;          (* default "", max_length=5000 *)
  priority : Priority            (* default "medium" *)
}.
End AddTaskSchema.

Module ListTasksSchema.
Record t := mk {
  user_id : Z;
  status : Status;               (* default "all" *)
  priority : option Priority;    (* default None *)
  limit : Z                      (* default 50, ge=1, le=100 *)
}.
End ListTasksSchema.

Module CompleteTaskSchema.
Record t := mk {
  user_id : Z;
  task_id : option Z;            (* default None, gt=0 *)
  task_title : option string     (* default None *)
}.
End CompleteTaskSchema.

Module DeleteTaskSchema.
Record t := mk {
  user_id : Z;
  task_id : option Z;            (* default None, gt=0 *)
  task_title : option string     (* default None *)
}.
End DeleteTaskSchema.

Module UpdateTaskSchema.
Record t := mk {
  user_id : Z;
  task_id : option Z;            (* default None, gt=0 *)
  task_title : option string;    (* default None *)
  title : option string;         (* default None, max_length=500 *)
  description : option string;   (* default None, max_length=5000 *)
  priority : option Priority     (* default None *)
}.
End UpdateTaskSchema.

(** ** Tools ([app/mcp/tools.py]) *)

(** A result envelope is the [dict] a tool returns. *)
Abbreviation Envelope := (gmap string pyval).

(** A [dict] display [{k1: v1, ...}] with distinct keys. *)
Definition dict (items : list (string * pyval)) : gmap string pyval :=
  list_to_map items.

(** [str(n)] for an [int]. *)
Definition str_int (n : Z) : string := pretty n.

Definition opt_str (o : option string) : pyval :=
  match o with Some s => PStr s | None => PNone end.

(** [try: ... except Exception as e: return {"success": False, "error":
    str(e), "message": f"<prefix>{str(e)}"}] around a tool body. *)
Definition catching (prefix : string) (r : (string + Envelope) * Session)
  : Envelope * Session :=
  match r with
  | (inr envelope, s) => (envelope, s)
  | (inl e, s) =>
      (dict [("success", PBool false); ("error", PStr e);
             ("message", PStr (prefix +:+ e))], s)
  end.

(** [updated_task.id] on [None]. *)
Definition none_has_no_id : string := "'NoneType' object has no attribute 'id'".

(** The notification and the envelope of a successful [add_task]. *)
Definition notify_created (user_id : Z) (task : Task.t) : Session -> Session :=
  add_notification user_id (Task.id task) "task_created" "‚úÖ Task Created"
    ("Created task: " +:+ Text.dq +:+ Task.title task +:+ Text.dq).

Definition created_envelope (task : Task.t) : Envelope :=
  dict [("success", PBool true);
        ("task_id", PInt (Task.id task));
        ("title", PStr (Task.title task));
        ("description", opt_str (Task.description task));
        ("priority", PStr (Priority_value (Task.priority task)));
        ("message", PStr ("Task '" +:+ Task.title task
                          +:+ "' created successfully with ID "
                          +:+ str_int (Task.id task)))].

(** [add_task(params, session)] *)
Definition add_task (params : AddTaskSchema.t) (session : Session)
  : Envelope * Session :=
  catching "Failed to create task: "
    (let task_data :=
       mkTaskCreate (AddTaskSchema.title params)
                    (Some (AddTaskSchema.description params))
                    (AddTaskSchema.priority params) in
     let '(task, s1) := create_task task_data session (AddTaskSchema.user_id params) in
     let s2 := notify_created (AddTaskSchema.user_id params) task s1 in
     (inr (created_envelope task), s2)).

(** The two list comprehensions over the fetched [tasks]: titles equal to
    [task_title] without regard to case and, only when there is none, titles
    that contain it. *)
Definition match_by_title (tasks : list Task.t) (task_title : string) : list Task.t :=
  let matching_tasks :=
    List.filter (fun t => String.eqb (Text.lower (Task.title t)) (Text.lower task_title))
                tasks in
  match matching_tasks with
  | [] => List.filter (fun t => Text.contains (Text.lower task_title)
                                              (Text.lower (Task.title t))) tasks
  | _ :: _ => matching_tasks
  end.

(** ["\n".join([f"- ID {t.id}: {t.title}" for t in matching_tasks])] *)
Definition task_list (matching_tasks : list Task.t) : string :=
  Text.join Text.nl
    (map (fun t => "- ID " +:+ str_int (Task.id t) +:+ ": " +:+ Task.title t)
         matching_tasks).

(** What tells the three mutating tools apart while they identify their
    task: the [completed] filter of the title search and four texts. *)
Record Wording := mkWording {
  completed_filter : option bool;
  no_match_prefix : string;
  use_id_suffix : string;
  missing_identifier : string;
  permission_denied : string
}.

Definition complete_wording : Wording :=
  mkWording (Some false)
            "No pending task found with title matching '"
            "Please use the task ID."
            "Please provide either task_id or task_title"
            "You don't have permission to complete this task".

Definition delete_wording : Wording :=
  mkWording None
            "No task found with title matching '"
            "Please use the task ID to delete."
            "Please provide either task_id or task_title"
            "You don't have permission to delete this task".

Definition update_wording : Wording :=
  mkWording None
            "No task found with title matching '"
            "Please use the task ID."
            "Please provide either task_id or task_title to identify the task"
            "You don't have permission to update this task".

Definition not_found_by_title (w : Wording) (task_title : string) : Envelope :=
  dict [("success", PBool false); ("error", PStr "Task not found");
        ("message", PStr (no_match_prefix w +:+ task_title +:+ "'"))].

Definition multiple_matches (w : Wording) (task_title : string)
    (matching_tasks : list Task.t) : Envelope :=
  dict [("success", PBool false); ("error", PStr "Multiple matches");
        ("message", PStr ("Found multiple tasks matching '" +:+ task_title +:+ "':"
                          +:+ Text.nl +:+ task_list matching_tasks
                          +:+ Text.nl +:+ Text.nl +:+ use_id_suffix w))].

Definition missing_parameter (w : Wording) : Envelope :=
  dict [("success", PBool false); ("error", PStr "Missing parameter");
        ("message", PStr (missing_identifier w))].

Definition not_found_by_id (task_id : Z) : Envelope :=
  dict [("success", PBool false); ("error", PStr "Task not found");
        ("message", PStr ("Task with ID " +:+ str_int task_id +:+ " not found"))].

Definition permission_denied_envelope (w : Wording) : Envelope :=
  dict [("success", PBool false); ("error", PStr "Permission denied");
        ("message", PStr (permission_denied w))].

(** The opening of [complete_task_tool], [delete_task_tool] and
    [update_task_tool], which each of them spells out: find the task by
    [task_title] if it is given and not empty, else by [task_id] if it is
    given and not zero; then check that it exists and belongs to [user_id].
    [inl] is the envelope of an early [return]; [inr (task, id)] is the task
    found and the id the tool goes on with. *)
Definition identify_task (w : Wording) (user_id : Z) (task_id : option Z)
    (task_title : option string) (session : Session) : Envelope + (Task.t * Z) :=
  let found : Envelope + (option Task.t * Z) :=
    match task_title with
    | Some ((String _ _) as task_title) =>
        let '(tasks, _) :=
          list_tasks session user_id 100 0 (Some task_title) (completed_filter w) None in
        match match_by_title tasks task_title with
        | [] => inl (not_found_by_title w task_title)
        | [task] => inr (Some task, Task.id task)
        | (_ :: _ :: _) as matching_tasks =>
            inl (multiple_matches w task_title matching_tasks)
        end
    | _ =>
        match task_id with
        | Some task_id =>
            if task_id =? 0 then inl (missing_parameter w)
            else inr (get_task task_id session, task_id)
        | None => inl (missing_parameter w)
        end
    end in
  match found with
  | inl envelope => inl envelope
  | inr (None, id_to_use) => inl (not_found_by_id id_to_use)
  | inr (Some task, id_to_use) =>
      if negb (Task.user_id task =? user_id)
      then inl (permission_denied_envelope w)
      else inr (task, id_to_use)
  end.

(** The notification and the envelope of a successful [complete_task_tool]. *)
Definition notify_completed (user_id : Z) (updated_task : Task.t) : Session -> Session :=
  add_notification user_id (Task.id updated_task) "task_completed" "üéâ Task Completed"
    ("Completed: " +:+ Text.dq +:+ Task.title updated_task +:+ Text.dq).

Definition completed_envelope (updated_task : Task.t) : Envelope :=
  dict [("success", PBool true);
        ("task_id", PInt (Task.id updated_task));
        ("title", PStr (Task.title updated_task));
        ("completed", PBool (Task.completed updated_task));
        ("message", PStr ("‚úÖ Task '" +:+ Task.title updated_task
                          +:+ "' marked as complete!"))].

(** [complete_task_tool(params, session)] *)
Definition complete_task_tool (params : CompleteTaskSchema.t) (session : Session)
  : Envelope * Session :=
  catching "Failed to complete task: "
    match identify_task complete_wording (CompleteTaskSchema.user_id params)
            (CompleteTaskSchema.task_id params) (CompleteTaskSchema.task_title params)
            session with
    | inl envelope => (inr envelope, session)
    | inr (task, task_id_to_complete) =>
        let task_patch := mkTaskPatch None None (Some true) None in
        match patch_task task_id_to_complete task_patch session with
        | (None, s1) => (inl none_has_no_id, s1)
        | (Some updated_task, s1) =>
            let s2 := notify_completed (CompleteTaskSchema.user_id params) updated_task s1 in
            (inr (completed_envelope updated_task), s2)
        end
    end.

(** The notification and the envelopes of [delete_task_tool] after the
    deletion was attempted; [task_title] is the title read before it. *)
Definition notify_deleted (user_id task_id_to_delete : Z) (task_title : string)
  : Session -> Session :=
  add_notification user_id task_id_to_delete "task_deleted" "üóëÔ∏è Task Deleted"
    ("Deleted: " +:+ Text.dq +:+ task_title +:+ Text.dq).

Definition deleted_envelope (task_id_to_delete : Z) (task_title : string) : Envelope :=
  dict [("success", PBool true);
        ("task_id", PInt task_id_to_delete);
        ("message", PStr ("‚úÖ Task '" +:+ task_title +:+ "' deleted successfully!"))].

Definition deletion_failed : Envelope :=
  dict [("success", PBool false); ("error", PStr "Deletion failed");
        ("message", PStr "Failed to delete task")].

(** [delete_task_tool(params, session)] *)
Definition delete_task_tool (params : DeleteTaskSchema.t) (session : Session)
  : Envelope * Session :=
  catching "Failed to delete task: "
    match identify_task delete_wording (DeleteTaskSchema.user_id params)
            (DeleteTaskSchema.task_id params) (DeleteTaskSchema.task_title params)
            session with
    | inl envelope => (inr envelope, session)
    | inr (task, task_id_to_delete) =>
        let task_title := Task.title task in
        let '(deleted, s1) := delete_task task_id_to_delete session in
        if deleted then
          let s2 :=
            notify_deleted (DeleteTaskSchema.user_id params) task_id_to_delete
                           task_title s1 in
          (inr (deleted_envelope task_id_to_delete task_title), s2)
        else
          (inr deletion_failed, s1)
    end.

(** The notification and the envelopes of [update_task_tool]. *)
Definition notify_updated (user_id : Z) (updated_task : Task.t) : Session -> Session :=
  add_notification user_id (Task.id updated_task) "task_updated" "‚úèÔ∏è Task Updated"
    ("Updated: " +:+ Text.dq +:+ Task.title updated_task +:+ Text.dq).

Definition updated_envelope (updated_task : Task.t) : Envelope :=
  dict [("success", PBool true);
        ("task_id", PInt (Task.id updated_task));
        ("title", PStr (Task.title updated_task));
        ("description", opt_str (Task.description updated_task));
        ("priority", PStr (Priority_value (Task.priority updated_task)));
        ("message", PStr ("Task '" +:+ Task.title updated_task
                          +:+ "' updated successfully"))].

Definition no_updates_provided : Envelope :=
  dict [("success", PBool false); ("error", PStr "No updates provided");
        ("message", PStr "No fields to update")].

(** [update_task_tool(params, session)] *)
Definition update_task_tool (params : UpdateTaskSchema.t) (session : Session)
  : Envelope * Session :=
  catching "Failed to update task: "
    match identify_task update_wording (UpdateTaskSchema.user_id params)
            (UpdateTaskSchema.task_id params) (UpdateTaskSchema.task_title params)
            session with
    | inl envelope => (inr envelope, session)
    | inr (task, task_id_to_update) =>
        let no_update_data :=
          match UpdateTaskSchema.title params, UpdateTaskSchema.description params,
                UpdateTaskSchema.priority params with
          | None, None, None => true
          | _, _, _ => false
          end in
        if no_update_data then (inr no_updates_provided, session)
        else
          let task_patch :=
            mkTaskPatch (UpdateTaskSchema.title params)
                        (UpdateTaskSchema.description params)
                        None
                        (UpdateTaskSchema.priority params) in
          match patch_task task_id_to_update task_patch session with
          | (None, s1) => (inl none_has_no_id, s1)
          | (Some updated_task, s1) =>
              let s2 := notify_updated (UpdateTaskSchema.user_id params) updated_task s1 in
              (inr (updated_envelope updated_task), s2)
          end
    end.

(** ** The tools that depend on the runtime: listing, validation, registry *)

Section Runtime.

(** Library behaviour the repository relies on but does not define:
    [datetime.isoformat()], pydantic's conversion of an input value to
    [int] and to [str], and the text of a pydantic [ValidationError] for
    a schema class and its input. *)
Variable isoformat : Z -> string.
Variable coerce_int : pyval -> option Z.
Variable coerce_str : pyval -> option string.
Variable validation_error : string -> gmap string pyval -> string.

(** [list_tasks_tool(params, session)] *)
Definition list_tasks_tool (params : ListTasksSchema.t) (session : Session)
  : Envelope * Session :=
  catching "Failed to list tasks: "
    (let completed_filter :=
       match ListTasksSchema.status params with
       | PENDING => Some false
       | COMPLETED => Some true
       | ALL => None
       end in
     let '(tasks, total) :=
       list_tasks session (ListTasksSchema.user_id params)
                  (Z.to_nat (ListTasksSchema.limit params)) 0 None
                  completed_filter
                  (Priority_value <$> ListTasksSchema.priority params) in
     let task_list :=
       map (fun task =>
              PDict [("id", PInt (Task.id task));
                     ("title", PStr (Task.title task));
                     ("description", opt_str (Task.description task));
                     ("priority", PStr (Priority_value (Task.priority task)));
                     ("completed", PBool (Task.completed task));
                     ("created_at", PStr (isoformat (Task.created_at task)))])
           tasks in
     (inr (dict [("success", PBool true);
                 ("tasks", PList task_list);
                 ("total", PInt total);
                 ("count", PInt (Z.of_nat (length task_list)));
                 ("message", PStr ("Found " +:+ str_int (Z.of_nat (length task_list))
                                   +:+ " " +:+ Status_value (ListTasksSchema.status params)
                                   +:+ " task(s)"))]),
      session)).

(** *** Field validation, as the [Field(...)] declarations constrain it.
    [None] is a field that fails validation. *)

(** [name: int], required. *)
Definition required_int (args : gmap string pyval) (name : string) : option Z :=
  args !! name ≫= coerce_int.

(** [name: Optional[int] = Field(default=None, gt=0)] *)
Definition optional_positive_int (args : gmap string pyval) (name : string)
  : option (option Z) :=
  match args !! name with
  | None | Some PNone => Some None
  | Some v =>
      match coerce_int v with
      | Some z => if 0 <? z then Some (Some z) else None
      | None => None
      end
  end.

Definition length_within (min_length : nat) (max_length : option nat) (s : string) : bool :=
  ((min_length <=? String.length s)
   && match max_length with
      | Some m => String.length s <=? m
      | None => true
      end)%nat.

(** [name: str = Field(min_length=.., max_length=..)], required or with a
    default. *)
Definition str_field (args : gmap string pyval) (name : string)
    (default_value : option string) (min_length : nat) (max_length : option nat)
  : option string :=
  match args !! name with
  | None => default_value
  | Some v =>
      match coerce_str v with
      | Some s => if length_within min_length max_length s then Some s else None
      | None => None
      end
  end.

(** [name: Optional[str] = Field(default=None, max_length=..)] *)
Definition optional_str (args : gmap string pyval) (name : string)
    (max_length : option nat) : option (option string) :=
  match args !! name with
  | None | Some PNone => Some None
  | Some v =>
      match coerce_str v with
      | Some s => if length_within 0 max_length s then Some (Some s) else None
      | None => None
      end
  end.

(** A [Literal[...]] accepts exactly the listed strings. *)
Definition literal {A : Type} (choices : list (string * A)) (v : pyval) : option A :=
  match v with
  | PStr s => snd <$> List.find (fun c => String.eqb (fst c) s) choices
  | _ => None
  end.

Definition priority_choices : list (string * Priority) :=
  [("low", LOW); ("medium", MEDIUM); ("high", HIGH)].

Definition status_choices : list (string * Status) :=
  [("all", ALL); ("pending", PENDING); ("completed", COMPLETED)].

(** [name: Literal[...] = Field(default=..)] *)
Definition literal_field {A : Type} (choices : list (string * A))
    (args : gmap string pyval) (name : string) (default_value : A) : option A :=
  match args !! name with
  | None => Some default_value
  | Some v => literal choices v
  end.

(** [name: Optional[Literal[...]] = Field(default=None)] *)
Definition optional_literal {A : Type} (choices : list (string * A))
    (args : gmap string pyval) (name : string) : option (option A) :=
  match args !! name with
  | None | Some PNone => Some None
  | Some v => Some <$> literal choices v
  end.

(** [name: int = Field(default=50, ge=1, le=100)] *)
Definition limit_field (args : gmap string pyval) (name : string) : option Z :=
  match args !! name with
  | None => Some 50
  | Some v =>
      match coerce_int v with
      | Some z => if (1 <=? z) && (z <=? 100) then Some z else None
      | None => None
      end
  end.

(** Calling each of the five schema classes on the tool arguments as
    keyword arguments: the parsed parameters, or the [ValidationError]
    raised. *)

Definition AddTaskSchema_parse (args : gmap string pyval) : string + AddTaskSchema.t :=
  match required_int args "user_id",
        str_field args "title" None 1 (Some 500%nat),
        str_field args "description" (Some "") 0 (Some 5000%nat),
        literal_field priority_choices args "priority" MEDIUM with
  | Some user_id, Some title, Some description, Some priority =>
      inr (AddTaskSchema.mk user_id title description priority)
  | _, _, _, _ => inl (validation_error "AddTaskSchema" args)
  end.

Definition ListTasksSchema_parse (args : gmap string pyval) : string + ListTasksSchema.t :=
  match required_int args "user_id",
        literal_field status_choices args "status" ALL,
        optional_literal priority_choices args "priority",
        limit_field args "limit" with
  | Some user_id, Some status, Some priority, Some limit =>
      inr (ListTasksSchema.mk user_id status priority limit)
  | _, _, _, _ => inl (validation_error "ListTasksSchema" args)
  end.

Definition CompleteTaskSchema_parse (args : gmap string pyval)
  : string + CompleteTaskSchema.t :=
  match required_int args "user_id",
        optional_positive_int args "task_id",
        optional_str args "task_title" None with
  | Some user_id, Some task_id, Some task_title =>
      inr (CompleteTaskSchema.mk user_id task_id task_title)
  | _, _, _ => inl (validation_error "CompleteTaskSchema" args)
  end.

Definition DeleteTaskSchema_parse (args : gmap string pyval)
  : string + DeleteTaskSchema.t :=
  match required_int args "user_id",
        optional_positive_int args "task_id",
        optional_str args "task_title" None with
  | Some user_id, Some task_id, Some task_title =>
      inr (DeleteTaskSchema.mk user_id task_id task_title)
  | _, _, _ => inl (validation_error "DeleteTaskSchema" args)
  end.

Definition UpdateTaskSchema_parse (args : gmap string pyval)
  : string + UpdateTaskSchema.t :=
  match required_int args "user_id",
        optional_positive_int args "task_id",
        optional_str args "task_title" None,
        optional_str args "title" (Some 500%nat),
        optional_str args "description" (Some 5000%nat),
        optional_literal priority_choices args "priority" with
  | Some user_id, Some task_id, Some task_title,
    Some title, Some description, Some priority =>
      inr (UpdateTaskSchema.mk user_id task_id task_title title description priority)
  | _, _, _, _, _, _ => inl (validation_error "UpdateTaskSchema" args)
  end.

End Runtime.

(** *** The registry *)

(** One entry of [TOOLS].  A handler may raise: [inl e] carries [str(e)]. *)
Record ToolConfig := mkToolConfig {
  params : Type;
  function : params -> Session -> (string + Envelope) * Session;
  schema : gmap string pyval -> string + params;
  description : string;
  parameters : pyval
}.

(** A handler that returns on every path. *)
Definition returning {P : Type} (tool : P -> Session -> Envelope * Session)
  : P -> Session -> (string + Envelope) * Session :=
  fun p s => let '(envelope, s') := tool p s in (inr envelope, s').

Definition property (type description : string) : pyval :=
  PDict [("type", PStr type); ("description", PStr description)].

Definition enum_property (choices : list string) (description : string) : pyval :=
  PDict [("type", PStr "string"); ("enum", PList (map PStr choices));
         ("description", PStr description)].

Definition object_schema (properties : list (string * pyval)) (required : list string)
  : pyval :=
  PDict [("type", PStr "object"); ("properties", PDict properties);
         ("required", PList (map PStr required))].

Definition user_id_property : string * pyval :=
  ("user_id", property "integer" "ID of the user (auto-injected)").

Definition priority_names : list string := ["low"; "medium"; "high"].

Section Registry.

Variable isoformat : Z -> string.
Variable coerce_int : pyval -> option Z.
Variable coerce_str : pyval -> option string.
Variable validation_error : string -> gmap string pyval -> string.

(** [TOOLS], in the order of the source. *)
Definition TOOLS : list (string * ToolConfig) :=
  [ ("add_task",
     mkToolConfig AddTaskSchema.t (returning add_task)
       (AddTaskSchema_parse coerce_int coerce_str validation_error)
       "Add a new task to the user's todo list"
       (object_schema
          [user_id_property;
           ("title", property "string" "Task title");
           ("description", property "string" "Task description");
           ("priority", enum_property priority_names "Priority level")]
          ["title"]));
    ("list_tasks",
     mkToolConfig ListTasksSchema.t (returning (list_tasks_tool isoformat))
       (ListTasksSchema_parse coerce_int validation_error)
       "List user's tasks with optional filtering by status and priority"
       (object_schema
          [user_id_property;
           ("status", enum_property ["all"; "pending"; "completed"] "Filter by status");
           ("priority", enum_property priority_names "Filter by priority");
           ("limit", property "integer" "Maximum number of tasks")]
          []));
    ("complete_task",
     mkToolConfig CompleteTaskSchema.t (returning complete_task_tool)
       (CompleteTaskSchema_parse coerce_int coerce_str validation_error)
       "REQUIRED TOOL: Mark a task as complete in the database. You MUST call this tool when user says 'complete [task]' or 'mark [task] as done'. Accepts either task_id (integer) OR task_title (string). NEVER say a task is completed without calling this tool - only the tool updates the database!"
       (object_schema
          [user_id_property;
           ("task_id", property "integer"
              "ID of the task to complete (optional if task_title provided)");
           ("task_title", property "string"
              "Title/name of the task to complete (PREFERRED - use this when user provides task name)")]
          []));
    ("delete_task",
     mkToolConfig DeleteTaskSchema.t (returning delete_task_tool)
       (DeleteTaskSchema_parse coerce_int coerce_str validation_error)
       "Delete a task from the user's todo list. Accepts either task_id (integer) OR task_title (string) to identify the task."
       (object_schema
          [user_id_property;
           ("task_id", property "integer"
              "ID of the task to delete (optional if task_title provided)");
           ("task_title", property "string"
              "Title/name of the task to delete (optional if task_id provided)")]
          []));
    ("update_task",
     mkToolConfig UpdateTaskSchema.t (returning update_task_tool)
       (UpdateTaskSchema_parse coerce_int coerce_str validation_error)
       "Update task details (title, description, priority). Accepts either task_id OR task_title to identify the task."
       (object_schema
          [user_id_property;
           ("task_id", property "integer"
              "ID of the task to update (optional if task_title provided)");
           ("task_title", property "string"
              "Current title/name of the task to update (optional if task_id provided)");
           ("title", property "string" "New task title (optional)");
           ("description", property "string" "New task description (optional)");
           ("priority", enum_property priority_names "New priority (optional)")]
          [])) ].

End Registry.

(** ** Conversation context ([app/chat/conversation.py]) *)

(** Python truth value. *)
Definition truthy (v : pyval) : bool :=
  match v with
  | PNone => false
  | PBool b => b
  | PInt z => negb (z =? 0)
  | PStr s => negb (String.eqb s "")
  | PList l => match l with [] => false | _ => true end
  | PDict d => match d with [] => false | _ => true end
  end.

(** One entry of the context handed to the agent: [role], [content] and,
    when the stored turn has a non-empty tool-call log, [tool_calls]. *)
Module ContextMessage.
Record t := mk {
  role : string;
  content : string;
  tool_calls : option pyval
}.
End ContextMessage.

(** [load_conversation_context(db, conversation_id, limit)] *)
Definition load_conversation_context (db : Session) (conversation_id : Z) (limit : nat)
  : list ContextMessage.t :=
  map (fun msg => ContextMessage.mk
                    (ConversationMessage.role msg) (ConversationMessage.content msg)
                    (match ConversationMessage.tool_calls msg with
                     | Some calls => if truthy calls then Some calls else None
                     | None => None
                     end))
      (get_conversation_history db conversation_id limit).

(** ** Agent ([app/chat/agent.py]) *)

(** A tool invocation requested by the model. *)
Module ToolCall.
Record t := mk {
  id : string;
  type : string;
  name : string;            (* function.name *)
  arguments : string        (* function.arguments, JSON text *)
}.
End ToolCall.

(** The entries of the [messages] list sent to the model. *)
Inductive Message :=
| Plain (role content : string)
| AssistantCalls (content : string) (tool_calls : list ToolCall.t)
| ToolResult (tool_call_id name content : string).

(** [response.choices[0].message] *)
Module ResponseMessage.
Record t := mk {
  content : option string;
  tool_calls : option (list ToolCall.t)
}.
End ResponseMessage.

(** What [json.loads] returns: an object, or any other JSON value. *)
Inductive json_value :=
| JObject (d : gmap string pyval)
| JOther (v : pyval).

(** One entry of [tool_calls_log]. *)
Module LogEntry.
Record t := mk {
  tool : string;
  arguments : gmap string pyval;
  result : Envelope
}.
End LogEntry.

(** The dict [chat] returns. *)
Module ChatResult.
Record t := mk {
  assistant_message : string;
  tool_calls : option (list LogEntry.t);
  error : option string;
  iterations : Z
}.
End ChatResult.

(** [if "user_id" not in tool_arguments: tool_arguments["user_id"] = user_id] *)
Definition inject_user_id (user_id : Z) (tool_arguments : gmap string pyval)
  : gmap string pyval :=
  match tool_arguments !! "user_id" with
  | None => <["user_id" := PInt user_id]> tool_arguments
  | Some _ => tool_arguments
  end.

(** [tool_calls_log if tool_calls_log else None] *)
Definition log_or_none (tool_calls_log : list LogEntry.t) : option (list LogEntry.t) :=
  match tool_calls_log with
  | [] => None
  | _ :: _ => Some tool_calls_log
  end.

Definition max_iterations_apology : string :=
  "I apologize, but I'm having trouble completing that request. Please try breaking it down into smaller steps.".

(** The default of [max_iterations]. *)
Definition default_max_iterations : Z := 5.

Section Agent.

(** The registry the agent dispatches on (the module-level [TOOLS]). *)
Variable TOOLS : list (string * ToolConfig).

(** The text of [SYSTEM_PROMPT] ([app/chat/prompts.py]). *)
Variable SYSTEM_PROMPT : string.

(** The model: [client.chat.completions.create(messages=.., tools=..)]
    gives the reply message or raises. *)
Variable create_completion :
  list Message -> list (string * string * pyval) -> string + ResponseMessage.t.

(** [json.loads], [json.dumps], and the text of the [TypeError] raised
    when a JSON value that is not an object is used as the argument
    dict. *)
Variable json_loads : string -> string + json_value.
Variable json_dumps : Envelope -> string.
Variable type_error : pyval -> string.

(** [_build_messages(conversation_history, user_message)] *)
Definition _build_messages (conversation_history : list ContextMessage.t)
    (user_message : string) : list Message :=
  ([Plain "system" SYSTEM_PROMPT]
   ++ map (fun msg => Plain (ContextMessage.role msg) (ContextMessage.content msg))
          conversation_history
   ++ [Plain "user" user_message]).

(** [_build_tools_schema()]: name, description and parameters of each
    registered tool. *)
Definition _build_tools_schema : list (string * string * pyval) :=
  map (fun '(tool_name, tool_config) =>
         (tool_name, description tool_config, parameters tool_config))
      TOOLS.

(** [TOOLS[tool_name]], if [tool_name in TOOLS]. *)
Definition lookup_tool (tool_name : string) : option ToolConfig :=
  snd <$> List.find (fun entry => String.eqb (fst entry) tool_name) TOOLS.

(** [_execute_tool(tool_name, tool_arguments, session)] *)
Definition _execute_tool (tool_name : string) (tool_arguments : gmap string pyval)
    (session : Session) : Envelope * Session :=
  match lookup_tool tool_name with
  | None =>
      (dict [("success", PBool false);
             ("error", PStr ("Unknown tool: " +:+ tool_name))],
       session)
  | Some tool_config =>
      let failed (e : string) : Envelope :=
        dict [("success", PBool false); ("error", PStr e);
              ("message", PStr ("Failed to execute " +:+ tool_name +:+ ": " +:+ e))] in
      match schema tool_config tool_arguments with
      | inl e => (failed e, session)
      | inr params =>
          match function tool_config params session with
          | (inr result, session') => (result, session')
          | (inl e, session') => (failed e, session')
          end
      end
  end.

(** The loop [for tool_call in response_message.tool_calls], threading
    [messages], [tool_calls_log] and the session.  The first component
    is [Some e] when an iteration raised [e]; what the iterations before
    it appended stays appended. *)
Fixpoint run_tool_calls (user_id : Z) (tool_calls : list ToolCall.t)
    (messages : list Message) (tool_calls_log : list LogEntry.t) (session : Session)
  : option string * list Message * list LogEntry.t * Session :=
  match tool_calls with
  | [] => (None, messages, tool_calls_log, session)
  | tool_call :: rest =>
      let tool_name := ToolCall.name tool_call in
      match json_loads (ToolCall.arguments tool_call) with
      | inl e => (Some e, messages, tool_calls_log, session)
      | inr (JOther v) => (Some (type_error v), messages, tool_calls_log, session)
      | inr (JObject tool_arguments) =>
          let tool_arguments := inject_user_id user_id tool_arguments in
          let '(tool_result, session') :=
            _execute_tool tool_name tool_arguments session in
          let tool_calls_log :=
            (tool_calls_log ++ [LogEntry.mk tool_name tool_arguments tool_result]) in
          let messages :=
            (messages ++ [ToolResult (ToolCall.id tool_call) tool_name
                                     (json_dumps tool_result)]) in
          run_tool_calls user_id rest messages tool_calls_log session'
      end
  end.

(** The [while iterations < max_iterations] loop of [chat]; [remaining]
    is the number of iterations the condition still admits.  Besides the
    returned dict and the session, the result lists the [messages] of
    every call made to the model, in order. *)
Fixpoint chat_loop (remaining : nat) (user_id : Z) (iterations : Z)
    (messages : list Message) (tool_calls_log : list LogEntry.t) (session : Session)
  : ChatResult.t * Session * list (list Message) :=
  match remaining with
  | O =>
      (ChatResult.mk max_iterations_apology (log_or_none tool_calls_log)
                     (Some "Max iterations reached") iterations,
       session, [])
  | S remaining' =>
      let iterations := iterations + 1 in
      let raised (e : string) (tool_calls_log : list LogEntry.t) : ChatResult.t :=
        ChatResult.mk ("I encountered an error: " +:+ e +:+ ". Please try again.")
                      (log_or_none tool_calls_log) (Some e) iterations in
      match create_completion messages _build_tools_schema with
      | inl e => (raised e tool_calls_log, session, [messages])
      | inr response_message =>
          match ResponseMessage.tool_calls response_message with
          | Some ((_ :: _) as tool_calls) =>
              let messages' :=
                (messages ++ [AssistantCalls
                                (default "" (ResponseMessage.content response_message))
                                tool_calls]) in
              match run_tool_calls user_id tool_calls messages' tool_calls_log session with
              | (Some e, _, tool_calls_log', session') =>
                  (raised e tool_calls_log', session', [messages])
              | (None, messages'', tool_calls_log', session') =>
                  let '(r, s, requests) :=
                    chat_loop remaining' user_id iterations messages''
                              tool_calls_log' session' in
                  (r, s, messages :: requests)
              end
          | _ =>
              (ChatResult.mk (default "" (ResponseMessage.content response_message))
                             (log_or_none tool_calls_log) None iterations,
               session, [messages])
          end
      end
  end.

(** [chat(user_message, user_id, conversation_history, session, max_iterations)] *)
Definition chat (user_message : string) (user_id : Z)
    (conversation_history : list ContextMessage.t) (session : Session)
    (max_iterations : Z) : ChatResult.t * Session * list (list Message) :=
  let messages := _build_messages conversation_history user_message in
  chat_loop (Z.to_nat max_iterations) user_id 0 messages [] session.

End Agent.

(** ** Scenarios used to exercise the embedding *)

(** The turns of one conversation, in table order. *)
Definition conversation_turns (db : Session) (conversation_id : Z)
  : list ConversationMessage.t :=
  List.filter (fun m => ConversationMessage.conversation_id m =? conversation_id)
              (conversation_messages db).

Definition empty_session : Session := mkSession [] [] [] 0 0 0 0.

(** [for i in range(n): create_conversation_message(db, conversation_id,
    user_id, "user" if i % 2 == 0 else "assistant", f"Message {i}")],
    started at [i]. *)
Fixpoint append_turns (n : nat) (i : Z) (conversation_id user_id : Z) (db : Session)
  : Session :=
  match n with
  | O => db
  | S n' =>
      let role := if i mod 2 =? 0 then "user" else "assistant" in
      let '(_, db') :=
        create_conversation_message db conversation_id user_id role
                                    ("Message " +:+ str_int i) None in
      append_turns n' (i + 1) conversation_id user_id db'
  end.

(** A conversation of 25 turns. *)
Definition db25 : Session := append_turns 25 0 1 7 empty_session.

(** The three mutating tools that identify their task by id or title. *)
Inductive MutatingTool :=
| CompleteTask
| DeleteTask
| UpdateTask (title description : option string) (priority : option Priority).

Definition wording_of (tool : MutatingTool) : Wording :=
  match tool with
  | CompleteTask => complete_wording
  | DeleteTask => delete_wording
  | UpdateTask _ _ _ => update_wording
  end.

(** The call [tool(params, session)] with [params.user_id], [params.task_id]
    and [params.task_title] as given. *)
Definition call_tool (tool : MutatingTool) (user_id : Z) (task_id : option Z)
    (task_title : option string) (session : Session) : Envelope * Session :=
  match tool with
  | CompleteTask =>
      complete_task_tool (CompleteTaskSchema.mk user_id task_id task_title) session
  | DeleteTask =>
      delete_task_tool (DeleteTaskSchema.mk user_id task_id task_title) session
  | UpdateTask title description priority =>
      update_task_tool
        (UpdateTaskSchema.mk user_id task_id task_title title description priority)
        session
  end.

(** The tasks a tool's title search fetches for [task_title]. *)
Definition candidates (w : Wording) (user_id : Z) (task_title : string)
    (session : Session) : list Task.t :=
  fst (list_tasks session user_id 100 0 (Some task_title) (completed_filter w) None).

(** [t.title.lower() == task_title.lower()] *)
Definition exact_match (task_title : string) (t : Task.t) : bool :=
  String.eqb (Text.lower (Task.title t)) (Text.lower task_title).

(** [task_title.lower() in t.title.lower()] *)
Definition substring_match (task_title : string) (t : Task.t) : bool :=
  Text.contains (Text.lower task_title) (Text.lower (Task.title t)).

(** A successful envelope that names task [id]. *)
Definition succeeded_on (envelope : Envelope) (id : Z) : Prop :=
  envelope !! "success" = Some (PBool true) /\ envelope !! "task_id" = Some (PInt id).

(** The same row with another completion flag. *)
Definition with_completed (flag : Task.t -> bool) (t : Task.t) : Task.t :=
  Task.mk (Task.id t) (Task.user_id t) (Task.title t) (Task.description t)
          (flag t) (Task.priority t) (Task.created_at t) (Task.updated_at t).

Definition task_row (id user_id : Z) (title : string) (completed : bool) (created_at : Z)
  : Task.t :=
  Task.mk id user_id title None completed MEDIUM created_at created_at.

(** User 7 has the pending tasks "Buy milk" and "Buy milk today". *)
Definition milk_session : Session :=
  mkSession [task_row 1 7 "Buy milk" false 10; task_row 2 7 "Buy milk today" false 20]
            [] [] 2 0 0 100.

(** The same, with "Buy milk" already completed. *)
Definition milk_done_session : Session :=
  mkSession [task_row 1 7 "Buy milk" true 10; task_row 2 7 "Buy milk today" false 20]
            [] [] 2 0 0 100.

(** User 8 has task 3, "Call my father"; user 7 has none. *)
Definition father_session : Session :=
  mkSession [task_row 3 8 "Call my father" false 30] [] [] 3 0 0 100.

(** Session [s'] holds the notifications [before] followed by exactly one
    more, for [user_id] and [task_id], of the given type and message. *)
Definition recorded (before : list Notification.t) (s' : Session)
    (user_id task_id : Z) (type message : string) : Prop :=
  exists n,
    notifications s' = before ++ [n]
    /\ Notification.user_id n = user_id
    /\ Notification.task_id n = task_id
    /\ Notification.type n = type
    /\ Notification.message n = message.

(** [f'<label>: "{title}"'] *)
Definition quoted (label title : string) : string :=
  label +:+ ": " +:+ Text.dq +:+ title +:+ Text.dq.

(** User 7 has task 7, "Call my father", created through [add_task]
    together with the notification of its creation. *)
Definition call_father_session : Session :=
  snd (add_task (AddTaskSchema.mk 7 "Call my father" "" MEDIUM)
                (mkSession [] [] [] 6 0 0 100)).

(** *** Rounds of the agent loop *)

Section Rounds.

Variable TOOLS : list (string * ToolConfig).
Variable create_completion :
  list Message -> list (string * string * pyval) -> string + ResponseMessage.t.
Variable json_loads : string -> string + json_value.
Variable json_dumps : Envelope -> string.
Variable type_error : pyval -> string.

(** The state after [n] rounds in each of which the model requested
    tools and every request was carried out without an exception: the
    message list, the tool-call log and the session.  [None] when some
    round among the [n] ends the exchange instead. *)
Fixpoint tool_rounds (n : nat) (user_id : Z) (messages : list Message)
    (tool_calls_log : list LogEntry.t) (session : Session)
  : option (list Message * list LogEntry.t * Session) :=
  match n with
  | O => Some (messages, tool_calls_log, session)
  | S n' =>
      match create_completion messages (_build_tools_schema TOOLS) with
      | inr response_message =>
          match ResponseMessage.tool_calls response_message with
          | Some ((_ :: _) as tool_calls) =>
              let messages' :=
                messages ++ [AssistantCalls
                               (default "" (ResponseMessage.content response_message))
                               tool_calls] in
              match run_tool_calls TOOLS json_loads json_dumps type_error
                                   user_id tool_calls messages' tool_calls_log session with
              | (None, messages'', tool_calls_log', session') =>
                  tool_rounds n' user_id messages'' tool_calls_log' session'
              | (Some _, _, _, _) => None
              end
          | _ => None
          end
      | inl _ => None
      end
  end.

End Rounds.

(** *** Stand-ins for the runtime *)

Definition plain_int (v : pyval) : option Z :=
  match v with PInt z => Some z | _ => None end.

Definition plain_str (v : pyval) : option string :=
  match v with PStr s => Some s | _ => None end.

Definition plain_validation_error (schema_class : string) (_ : gmap string pyval)
  : string :=
  "1 validation error for " +:+ schema_class.

(** The registry with these stand-ins. *)
Definition plain_TOOLS : list (string * ToolConfig) :=
  TOOLS str_int plain_int plain_str plain_validation_error.

(** The JSON text of an object whose only member is [user_id], 8. *)
Definition names_user_8 : string :=
  "{" +:+ Text.dq +:+ "user_id" +:+ Text.dq +:+ ": 8}".

(** A [json.loads] that knows two texts: the empty object, and the object
    that names user 8. *)
Definition two_text_loads (text : string) : string + json_value :=
  if String.eqb text "{}" then inr (JObject ∅)
  else if String.eqb text names_user_8 then inr (JObject {["user_id" := PInt 8]})
  else inl "Expecting value".

Definition constant_dumps (_ : Envelope) : string := "{}".

Definition plain_type_error (_ : pyval) : string :=
  "argument is not a mapping".

(** A model that asks for [list_tasks] with no arguments on every call. *)
Definition always_list_tasks (_ : list Message) (_ : list (string * string * pyval))
  : string + ResponseMessage.t :=
  inr (ResponseMessage.mk None
         (Some [ToolCall.mk "call_1" "function" "list_tasks" "{}"])).

(** A handler that raises, registered under the name ["boom"]. *)
Definition raising_TOOLS : list (string * ToolConfig) :=
  [("boom",
    mkToolConfig unit (fun _ s => (inl "store unavailable", s)) (fun _ => inr tt)
                 "A tool whose handler raises" (object_schema [] []))].

(** * Properties *)

(** ** [ORDER BY ... DESC] *)

Section OrderByFacts.
Context {A : Type} (key : A -> Z).

Lemma insert_desc_perm (x : A) (l : list A) : insert_desc key x l ≡ₚ x :: l.
Proof.
  induction l as [|y l IH]; simpl; [done|].
  destruct (key y <? key x); [done|].
  rewrite IH. apply Permutation_swap.
Qed.

Lemma order_by_desc_perm (l : list A) : order_by_desc key l ≡ₚ l.
Proof.
  induction l as [|x l IH]; simpl; [done|].
  rewrite insert_desc_perm. by f_equiv.
Qed.

Lemma order_by_desc_length (l : list A) : length (order_by_desc key l) = length l.
Proof. apply Permutation_length, order_by_desc_perm. Qed.

Lemma order_by_desc_In (x : A) (l : list A) : In x (order_by_desc key l) <-> In x l.
Proof.
  split; apply Permutation_in; [|symmetry]; apply order_by_desc_perm.
Qed.

Lemma insert_desc_sorted (x : A) (l : list A) :
  StronglySorted (fun a b => key b <= key a) l ->
  StronglySorted (fun a b => key b <= key a) (insert_desc key x l).
Proof.
  induction 1 as [|y l Hs IH Hy]; simpl.
  - repeat constructor.
  - destruct (Z.ltb_spec (key y) (key x)) as [Hlt|Hge].
    + constructor; [by constructor|].
      constructor; [lia|].
      eapply Forall_impl; [exact Hy|]. simpl. intros; lia.
    + constructor; [exact IH|].
      rewrite insert_desc_perm. by constructor.
Qed.

Lemma order_by_desc_sorted (l : list A) :
  StronglySorted (fun a b => key b <= key a) (order_by_desc key l).
Proof.
  induction l as [|x l IH]; simpl; [constructor|].
  by apply insert_desc_sorted.
Qed.

(** A row older than every row of the list goes to its end. *)
Lemma insert_desc_oldest (x : A) (l : list A) :
  Forall (fun y => key x <= key y) l -> insert_desc key x l = l ++ [x].
Proof.
  induction 1 as [|y l Hy _ IH]; simpl; [done|].
  destruct (Z.ltb_spec (key y) (key x)); [lia|]. by rewrite IH.
Qed.

(** Rows stored in strictly ascending key order come back reversed. *)
Lemma order_by_desc_ascending (l : list A) :
  StronglySorted (fun a b => key a < key b) l -> order_by_desc key l = rev l.
Proof.
  induction 1 as [|x l _ IH Hx]; simpl; [done|].
  rewrite IH. apply insert_desc_oldest.
  apply Forall_forall. intros y Hy. apply list_elem_of_In, in_rev in Hy.
  rewrite Forall_forall in Hx. apply list_elem_of_In in Hy.
  specialize (Hx y Hy). simpl in Hx. lia.
Qed.

End OrderByFacts.

(** Sorting commutes with a change of the rows that keeps their keys. *)
Lemma order_by_desc_map {A : Type} (key : A -> Z) (f : A -> A) (l : list A) :
  (forall x, key (f x) = key x) ->
  order_by_desc key (map f l) = map f (order_by_desc key l).
Proof.
  intros Hkey. induction l as [|x l IH]; simpl; [done|].
  rewrite IH. generalize (order_by_desc key l). clear IH.
  intros l'. induction l' as [|y l' IH]; simpl; [done|].
  rewrite !Hkey. destruct (key y <? key x); simpl; [done|]. by rewrite IH.
Qed.

(** ** Conversation history *)

(** C6. Loading conversation history returns at most [limit] turns, the most
    recently created ones, oldest first: the result has [min limit n]
    turns out of the [n] of the conversation, is in ascending order of
    creation time, and the turns left out are no newer than any turn
    returned.  When the turns were appended in strictly increasing creation
    time, the result is exactly the last [limit] of them in their order. *)
Theorem C6_history_sliding_window (db : Session) (conversation_id : Z) (limit : nat) :
  let history := get_conversation_history db conversation_id limit in
  let turns := conversation_turns db conversation_id in
  length history = Nat.min limit (length turns)
  /\ StronglySorted (fun a b => ConversationMessage.created_at a
                                <= ConversationMessage.created_at b) history
  /\ (exists dropped,
         turns ≡ₚ dropped ++ history
         /\ forall d m, In d dropped -> In m history ->
                        ConversationMessage.created_at d
                        <= ConversationMessage.created_at m)
  /\ (StronglySorted (fun a b => ConversationMessage.created_at a
                                 < ConversationMessage.created_at b) turns ->
      history = skipn (length turns - limit) turns).
Proof.
  intros history turns.
  unfold history, get_conversation_history. fold (conversation_turns db conversation_id).
  fold turns.
  set (sorted := order_by_desc ConversationMessage.created_at turns).
  assert (Hsorted : StronglySorted
            (fun a b => ConversationMessage.created_at b
                        <= ConversationMessage.created_at a) sorted)
    by apply order_by_desc_sorted.
  assert (Hperm : sorted ≡ₚ turns) by apply order_by_desc_perm.
  rewrite <- (firstn_skipn limit sorted) in Hsorted, Hperm.
  apply StronglySorted_app in Hsorted as (Hcross & Hkept & _).
  repeat split.
  - rewrite length_rev, length_firstn. unfold sorted.
    by rewrite order_by_desc_length.
  - clear -Hkept. induction Hkept as [|x l _ IH Hx]; simpl; [constructor|].
    apply StronglySorted_app_2; [|exact IH|repeat constructor].
    intros a b Ha Hb. apply list_elem_of_In in Ha, Hb.
    apply in_rev in Ha. destruct Hb as [<-|[]].
    rewrite Forall_forall in Hx. apply Hx. by apply list_elem_of_In.
  - exists (skipn limit sorted). split.
    + rewrite <- Hperm. rewrite (Permutation_app_comm (firstn limit sorted)).
      f_equiv. apply Permutation_rev.
    + intros d m Hd Hm. apply in_rev in Hm.
      apply Hcross; by apply list_elem_of_In.
  - intros Hasc. unfold sorted. rewrite (order_by_desc_ascending _ _ Hasc).
    rewrite firstn_rev. apply rev_involutive.
Qed.

(** With 25 turns appended one after the other, a load with limit 20
    returns turns 5 to 24 in the order they were appended. *)
Lemma C6_history_sliding_window_25 :
  map ConversationMessage.content
      (get_conversation_history db25 1 default_history_limit)
  = map (fun i => "Message " +:+ str_int i) (map Z.of_nat (seq 5 20)).
Proof.
  destruct (C6_history_sliding_window db25 1 default_history_limit)
    as (_ & _ & _ & Hlast).
  rewrite Hlast; [reflexivity|].
  refine (bool_decide_unpack _ _); vm_compute; exact I.
Defined.

(** ** Identifying the task *)

Lemma In_firstn {A : Type} (x : A) (n : nat) (l : list A) :
  In x (firstn n l) -> In x l.
Proof. intros H. rewrite <- (firstn_skipn n l). apply in_or_app. by left. Qed.

Lemma In_skipn {A : Type} (x : A) (n : nat) (l : list A) :
  In x (skipn n l) -> In x l.
Proof. intros H. rewrite <- (firstn_skipn n l). apply in_or_app. by right. Qed.

(** Every fetched task is a row of the table that passes the [WHERE] clause. *)
Lemma list_tasks_In (s : Session) (uid : Z) (limit offset : nat)
    (search : option string) (completed : option bool) (priority : option string)
    (t : Task.t) :
  In t (fst (list_tasks s uid limit offset search completed priority)) ->
  In t (tasks s) /\ list_tasks_where uid search completed priority t = true.
Proof.
  unfold list_tasks, limit_offset. simpl. intros H.
  apply In_firstn, In_skipn, order_by_desc_In in H. by apply filter_In in H.
Qed.

Lemma list_tasks_owner (s : Session) (uid : Z) (limit offset : nat)
    (search : option string) (completed : option bool) (priority : option string)
    (t : Task.t) :
  In t (fst (list_tasks s uid limit offset search completed priority)) ->
  Task.user_id t = uid.
Proof.
  intros H. apply list_tasks_In in H as [_ H]. unfold list_tasks_where in H.
  apply andb_prop in H as [H _]. apply andb_prop in H as [H _].
  apply andb_prop in H as [H _]. lia.
Qed.

Lemma list_tasks_completed (s : Session) (uid : Z) (limit offset : nat)
    (search : option string) (c : bool) (priority : option string) (t : Task.t) :
  In t (fst (list_tasks s uid limit offset search (Some c) priority)) ->
  Task.completed t = c.
Proof.
  intros H. apply list_tasks_In in H as [_ H]. unfold list_tasks_where in H.
  apply andb_prop in H as [H _]. apply andb_prop in H as [_ H].
  by apply Bool.eqb_prop in H.
Qed.

(** The two passes. *)
Lemma match_by_title_passes (fetched : list Task.t) (q : string) :
  match_by_title fetched q =
    match List.filter (exact_match q) fetched with
    | [] => List.filter (substring_match q) fetched
    | _ :: _ => List.filter (exact_match q) fetched
    end.
Proof. reflexivity. Qed.

Lemma match_by_title_In (fetched : list Task.t) (q : string) (t : Task.t) :
  In t (match_by_title fetched q) -> In t fetched.
Proof.
  rewrite match_by_title_passes.
  destruct (List.filter (exact_match q) fetched) eqn:E.
  - intros H. by apply filter_In in H as [H _].
  - rewrite <- E. intros H. by apply filter_In in H as [H _].
Qed.

Lemma match_by_title_exact (fetched : list Task.t) (q : string) :
  (exists t, In t fetched /\ exact_match q t = true) ->
  match_by_title fetched q = List.filter (exact_match q) fetched.
Proof.
  intros (t & Hin & Hex). rewrite match_by_title_passes.
  destruct (List.filter (exact_match q) fetched) eqn:E; [|done].
  assert (H : In t (List.filter (exact_match q) fetched)) by by apply filter_In.
  rewrite E in H. destruct H.
Qed.

(** Identification by a non-empty title, in terms of the matching list. *)
Lemma identify_by_title (w : Wording) (uid : Z) (tid : option Z) (q : string)
    (s : Session) :
  q <> "" ->
  identify_task w uid tid (Some q) s =
    match match_by_title (candidates w uid q s) q with
    | [] => inl (not_found_by_title w q)
    | [task] => inr (task, Task.id task)
    | (_ :: _ :: _) as matching_tasks => inl (multiple_matches w q matching_tasks)
    end.
Proof.
  intros Hq. destruct q as [|c q]; [done|].
  unfold identify_task, candidates.
  destruct (list_tasks s uid 100 0 (Some (String c q)) (completed_filter w) None)
    as [fetched total] eqn:E.
  simpl.
  assert (Hown : forall t, In t (match_by_title fetched (String c q)) ->
                           Task.user_id t = uid).
  { intros t Ht. apply match_by_title_In in Ht.
    eapply list_tasks_owner. rewrite E. exact Ht. }
  destruct (match_by_title fetched (String c q)) as [|task [|task' rest]]; try done.
  rewrite (Hown task) by (by left). by rewrite Z.eqb_refl.
Qed.

(** Identification by id, when no title is given. *)
Lemma identify_by_id (w : Wording) (uid tid : Z) (s : Session) :
  tid <> 0 ->
  identify_task w uid (Some tid) None s =
    match get_task tid s with
    | None => inl (not_found_by_id tid)
    | Some task =>
        if Task.user_id task =? uid then inr (task, tid)
        else inl (permission_denied_envelope w)
    end.
Proof.
  intros Htid. unfold identify_task.
  destruct (Z.eqb_spec tid 0); [done|].
  destruct (get_task tid s) as [task|]; [|done].
  by destruct (Task.user_id task =? uid).
Qed.

Lemma get_task_Some (tid : Z) (s : Session) (t : Task.t) :
  get_task tid s = Some t -> In t (tasks s) /\ Task.id t = tid.
Proof.
  unfold get_task. intros H. apply find_some in H as [Hin Hid]. split; [done|lia].
Qed.

(** An empty title counts as no title. *)
Lemma identify_empty_title (w : Wording) (uid : Z) (tid : option Z) (s : Session) :
  identify_task w uid tid (Some "") s = identify_task w uid tid None s.
Proof. reflexivity. Qed.

(** Whatever task is identified is a row of the table that belongs to the
    caller and carries the id the tool goes on with. *)
Lemma identify_task_sound (w : Wording) (uid : Z) (tid : option Z)
    (q : option string) (s : Session) (task : Task.t) (id : Z) :
  identify_task w uid tid q s = inr (task, id) ->
  In task (tasks s) /\ Task.user_id task = uid /\ Task.id task = id
  /\ match q with
     | Some ((String _ _) as q) => In task (match_by_title (candidates w uid q s) q)
     | _ => get_task id s = Some task
     end.
Proof.
  intros H.
  assert (Hid : identify_task w uid tid None s = inr (task, id) ->
                In task (tasks s) /\ Task.user_id task = uid /\ Task.id task = id
                /\ get_task id s = Some task).
  { clear H. intros H. destruct tid as [tid|]; [|done].
    destruct (Z.eqb_spec tid 0) as [->|Hne]; [done|].
    rewrite identify_by_id in H by done.
    destruct (get_task tid s) as [t|] eqn:E; [|done].
    destruct (Z.eqb_spec (Task.user_id t) uid); [|done].
    injection H as -> ->. apply get_task_Some in E as HE.
    destruct HE. by repeat split. }
  destruct q as [[|c q]|]; [by apply Hid| |by apply Hid].
  rewrite identify_by_title in H by done.
  destruct (match_by_title (candidates w uid (String c q) s) (String c q))
    as [|t [|t' rest]] eqn:E; try done.
  assert (Hin : In t (match_by_title (candidates w uid (String c q) s) (String c q)))
    by (rewrite E; by left).
  injection H as <- <-.
  repeat split; [| |by left].
  - apply match_by_title_In in Hin. by apply list_tasks_In in Hin as [Hin _].
  - apply match_by_title_In in Hin. by apply list_tasks_owner in Hin.
Qed.

(** ** The mutating tools, once the task is identified *)

(** Every early [return] of the identification is a failure envelope. *)
Lemma identify_task_early (w : Wording) (uid : Z) (tid : option Z)
    (q : option string) (s : Session) (envelope : Envelope) :
  identify_task w uid tid q s = inl envelope ->
  envelope !! "success" = Some (PBool false) /\ is_Some (envelope !! "message").
Proof.
  unfold identify_task. intros H.
  repeat case_match; simplify_eq; split; (reflexivity || by eexists).
Qed.

Lemma call_tool_early (tool : MutatingTool) (uid : Z) (tid : option Z)
    (q : option string) (s : Session) (envelope : Envelope) :
  identify_task (wording_of tool) uid tid q s = inl envelope ->
  call_tool tool uid tid q s = (envelope, s).
Proof.
  intros H. destruct tool; simpl in *;
    unfold complete_task_tool, delete_task_tool, update_task_tool; simpl;
    by rewrite H.
Qed.

Lemma get_task_present (t : Task.t) (s : Session) :
  In t (tasks s) -> exists db_task, get_task (Task.id t) s = Some db_task.
Proof.
  intros Hin. unfold get_task.
  destruct (find (fun t' => Task.id t' =? Task.id t) (tasks s)) eqn:E; [by eexists|].
  apply (find_none _ _ E) in Hin. lia.
Qed.

Lemma patch_task_found (id : Z) (task_data : TaskPatch) (s : Session) (db_task : Task.t) :
  get_task id s = Some db_task ->
  patch_task id task_data s =
    (Some (apply_patch task_data (clock s) db_task),
     with_tasks (snd (utcnow s))
                (store_task (apply_patch task_data (clock s) db_task) (tasks s))).
Proof. intros H. unfold patch_task. by rewrite H. Qed.

Lemma delete_task_found (id : Z) (s : Session) (db_task : Task.t) :
  get_task id s = Some db_task ->
  delete_task id s =
    (true,
     mkSession
       (List.filter (fun t => negb (Task.id t =? id)) (tasks s))
       (List.filter (fun n => negb (Notification.task_id n =? id)) (notifications s))
       (conversation_messages s)
       (task_seq s) (notification_seq s) (message_seq s) (clock s)).
Proof.
  intros H. unfold delete_task. rewrite H.
  apply get_task_Some in H as [_ ->]. reflexivity.
Qed.

(** The task identified is still there when the tool looks it up again. *)
Lemma identified_present (w : Wording) (uid : Z) (tid : option Z)
    (q : option string) (s : Session) (task : Task.t) (id : Z) :
  identify_task w uid tid q s = inr (task, id) ->
  exists db_task, get_task id s = Some db_task.
Proof.
  intros H. apply identify_task_sound in H as (Hin & _ & <- & _).
  by apply get_task_present.
Qed.

Lemma complete_identified (uid : Z) (tid : option Z) (q : option string)
    (s : Session) (task : Task.t) (id : Z) :
  identify_task complete_wording uid tid q s = inr (task, id) ->
  exists db_task,
    get_task id s = Some db_task
    /\ let updated_task :=
         apply_patch (mkTaskPatch None None (Some true) None) (clock s) db_task in
       call_tool CompleteTask uid tid q s =
         (completed_envelope updated_task,
          notify_completed uid updated_task
            (with_tasks (snd (utcnow s)) (store_task updated_task (tasks s)))).
Proof.
  intros H. destruct (identified_present _ _ _ _ _ _ _ H) as [db_task Hdb].
  exists db_task. split; [done|].
  simpl. unfold complete_task_tool. simpl. rewrite H.
  by rewrite (patch_task_found _ _ _ _ Hdb).
Qed.

Lemma delete_identified (uid : Z) (tid : option Z) (q : option string)
    (s : Session) (task : Task.t) (id : Z) :
  identify_task delete_wording uid tid q s = inr (task, id) ->
  fst (delete_task id s) = true
  /\ call_tool DeleteTask uid tid q s =
       (deleted_envelope id (Task.title task),
        notify_deleted uid id (Task.title task) (snd (delete_task id s))).
Proof.
  intros H. destruct (identified_present _ _ _ _ _ _ _ H) as [db_task Hdb].
  simpl. unfold delete_task_tool. simpl. rewrite H.
  by rewrite (delete_task_found _ _ _ Hdb).
Qed.

Lemma update_identified (title description : option string) (priority : option Priority)
    (uid : Z) (tid : option Z) (q : option string)
    (s : Session) (task : Task.t) (id : Z) :
  identify_task update_wording uid tid q s = inr (task, id) ->
  (title = None /\ description = None /\ priority = None
   /\ call_tool (UpdateTask title description priority) uid tid q s
      = (no_updates_provided, s))
  \/ exists db_task,
       get_task id s = Some db_task
       /\ let updated_task :=
            apply_patch (mkTaskPatch title description None priority) (clock s) db_task in
          call_tool (UpdateTask title description priority) uid tid q s =
            (updated_envelope updated_task,
             notify_updated uid updated_task
               (with_tasks (snd (utcnow s)) (store_task updated_task (tasks s)))).
Proof.
  intros H. destruct (identified_present _ _ _ _ _ _ _ H) as [db_task Hdb].
  simpl. unfold update_task_tool. simpl. rewrite H.
  destruct title, description, priority;
    try (right; exists db_task; split; [done|];
         by rewrite (patch_task_found _ _ _ _ Hdb)).
  left. by repeat split.
Qed.

(** A successful envelope names the task that was identified. *)
Lemma call_tool_succeeded (tool : MutatingTool) (uid : Z) (tid : option Z)
    (q : option string) (s : Session) (id : Z) :
  succeeded_on (fst (call_tool tool uid tid q s)) id ->
  exists task, identify_task (wording_of tool) uid tid q s = inr (task, id).
Proof.
  intros [Hok Hid].
  destruct (identify_task (wording_of tool) uid tid q s) as [envelope|[task id']] eqn:E.
  - rewrite (call_tool_early _ _ _ _ _ _ E) in Hok. simpl in Hok.
    apply identify_task_early in E as [E _]. congruence.
  - exists task. destruct tool as [| |new_title new_description new_priority].
    + apply complete_identified in E as (db_task & Hdb & Hcall).
      rewrite Hcall in Hid. apply get_task_Some in Hdb as [_ Hdb].
      vm_compute in Hid. simplify_eq. done.
    + apply delete_identified in E as (_ & Hcall).
      rewrite Hcall in Hid. vm_compute in Hid. by simplify_eq.
    + apply (update_identified new_title new_description new_priority) in E
        as [(_ & _ & _ & Hcall)|(db_task & Hdb & Hcall)].
      * rewrite Hcall in Hok. done.
      * rewrite Hcall in Hid. apply get_task_Some in Hdb as [_ Hdb].
        vm_compute in Hid. by simplify_eq.
Qed.

(** ** Claims about identifying a task by title or id *)

(** C1, as amended.  Title resolution in the three mutating tools is
    two-pass over the tasks the tool's search fetched: pass 2 (substring
    containment) supplies the matches only when pass 1 (equality without
    regard to case) has none.  Whenever a fetched task matches exactly, the
    matches are exactly the exact matches, a sole exact match is the task
    identified, and a call that succeeds has acted on an exact match. *)
Theorem C1_exact_match_precedence (tool : MutatingTool) (uid : Z) (tid : option Z)
    (q : string) (s : Session) :
  let fetched := candidates (wording_of tool) uid q s in
  q <> "" ->
  (exists t, In t fetched /\ exact_match q t = true) ->
  (List.filter (exact_match q) fetched = [] ->
   match_by_title fetched q = List.filter (substring_match q) fetched)
  /\ match_by_title fetched q = List.filter (exact_match q) fetched
  /\ (forall t, List.filter (exact_match q) fetched = [t] ->
                identify_task (wording_of tool) uid tid (Some q) s = inr (t, Task.id t))
  /\ (forall id, succeeded_on (fst (call_tool tool uid tid (Some q) s)) id ->
                 exists task, In task fetched /\ Task.id task = id
                              /\ exact_match q task = true).
Proof.
  intros fetched Hq Hex.
  pose proof (match_by_title_exact fetched q Hex) as Hpass1.
  repeat split.
  - intros Hnone. rewrite match_by_title_passes. by rewrite Hnone.
  - exact Hpass1.
  - intros t Ht. rewrite identify_by_title by done. fold fetched.
    by rewrite Hpass1, Ht.
  - intros id Hid. apply call_tool_succeeded in Hid as [task Hid].
    apply identify_task_sound in Hid as (_ & _ & Hid & Hin).
    destruct q as [|c q]; [done|]. fold fetched in Hin. rewrite Hpass1 in Hin.
    apply filter_In in Hin as [Hin Hexact]. by exists task.
Qed.

(** With the pending tasks "Buy milk" and "Buy milk today", resolving
    "Buy milk" identifies task 1, the exact match, in each of the three
    tools. *)
Lemma C1_exact_match_precedence_milk :
  identify_task complete_wording 7 None (Some "Buy milk") milk_session
  = inr (task_row 1 7 "Buy milk" false 10, 1)
  /\ identify_task delete_wording 7 None (Some "Buy milk") milk_session
     = inr (task_row 1 7 "Buy milk" false 10, 1)
  /\ identify_task update_wording 7 None (Some "Buy milk") milk_session
     = inr (task_row 1 7 "Buy milk" false 10, 1).
Proof.
  assert (Hq : "Buy milk" <> "") by discriminate.
  split; [|split].
  - destruct (C1_exact_match_precedence CompleteTask 7 None "Buy milk" milk_session Hq)
      as (_ & _ & Hsole & _).
    + exists (task_row 1 7 "Buy milk" false 10). vm_compute. auto.
    + apply (Hsole (task_row 1 7 "Buy milk" false 10)). reflexivity.
  - destruct (C1_exact_match_precedence DeleteTask 7 None "Buy milk" milk_session Hq)
      as (_ & _ & Hsole & _).
    + exists (task_row 1 7 "Buy milk" false 10). vm_compute. auto.
    + apply (Hsole (task_row 1 7 "Buy milk" false 10)). reflexivity.
  - destruct (C1_exact_match_precedence (UpdateTask None None None) 7 None "Buy milk"
                milk_session Hq) as (_ & _ & Hsole & _).
    + exists (task_row 1 7 "Buy milk" false 10). vm_compute. auto.
    + apply (Hsole (task_row 1 7 "Buy milk" false 10)). reflexivity.
Defined.

(** C1, as stated, fails: user 7 owns "Buy milk" (completed) and "Buy milk
    today" (pending); completing by the title "Buy milk" succeeds on task
    2, which only contains the query, although task 1 matches it exactly. *)
Lemma C1_completed_exact_match_is_skipped :
  ~ (forall (tool : MutatingTool) (uid : Z) (q : string) (s : Session)
            (t : Task.t) (id : Z),
        q <> "" ->
        In t (tasks s) -> Task.user_id t = uid -> exact_match q t = true ->
        succeeded_on (fst (call_tool tool uid None (Some q) s)) id ->
        exists task, In task (tasks s) /\ Task.id task = id
                     /\ exact_match q task = true).
Proof.
  intros Hclaim.
  destruct (Hclaim CompleteTask 7 "Buy milk" milk_done_session
                   (task_row 1 7 "Buy milk" true 10) 2)
    as (task & Hin & Hid & Hexact).
  - discriminate.
  - by left.
  - reflexivity.
  - reflexivity.
  - split; reflexivity.
  - destruct Hin as [<-|[<-|[]]]; [discriminate Hid|discriminate Hexact].
Qed.

(** Changing completion flags changes nothing that a search without a
    [completed] filter reads. *)
Lemma list_tasks_any_completion (flag : Task.t -> bool) (s : Session) (uid : Z)
    (limit offset : nat) (search : option string) (priority : option string) :
  fst (list_tasks (with_tasks s (map (with_completed flag) (tasks s)))
                  uid limit offset search None priority)
  = map (with_completed flag)
        (fst (list_tasks s uid limit offset search None priority)).
Proof.
  unfold list_tasks, limit_offset. simpl.
  rewrite filter_map_swap, order_by_desc_map by done.
  by rewrite skipn_map, firstn_map.
Qed.

Lemma match_by_title_any_completion (flag : Task.t -> bool) (fetched : list Task.t)
    (q : string) :
  match_by_title (map (with_completed flag) fetched) q
  = map (with_completed flag) (match_by_title fetched q).
Proof.
  rewrite !match_by_title_passes.
  unfold exact_match, substring_match. rewrite !filter_map_swap. simpl.
  by destruct (List.filter _ fetched).
Qed.

(** A completion by title that succeeds acted on a pending task. *)
Lemma complete_by_title_pending (uid : Z) (tid : option Z) (q : string)
    (s : Session) (id : Z) :
  q <> "" ->
  succeeded_on (fst (call_tool CompleteTask uid tid (Some q) s)) id ->
  exists t, In t (tasks s) /\ Task.id t = id /\ Task.user_id t = uid
            /\ Task.completed t = false.
Proof.
  intros Hq Hid. apply call_tool_succeeded in Hid as [task Hid].
  apply identify_task_sound in Hid as (Hin & Hown & Hid & Hmatch).
  exists task. repeat split; try done.
  destruct q as [|c q]; [done|].
  apply match_by_title_In in Hmatch. by apply list_tasks_completed in Hmatch.
Qed.

(** C7. The title search of [complete_task] considers only tasks that are
    not completed: every task it fetches is pending, and a completion by
    title that succeeds acted on a task whose flag was false.  The searches
    of [delete_task] and [update_task] do not look at the flag: changing
    the completion flags of the stored tasks in any way leaves the fetched
    tasks, and the task identified by title, the same up to that flag. *)
Theorem C7_completion_scope (uid : Z) (tid : option Z) (q : string) (s : Session) :
  q <> "" ->
  (forall t, In t (candidates complete_wording uid q s) -> Task.completed t = false)
  /\ (forall id, succeeded_on (fst (call_tool CompleteTask uid tid (Some q) s)) id ->
                 exists t, In t (tasks s) /\ Task.id t = id /\ Task.user_id t = uid
                           /\ Task.completed t = false)
  /\ (forall tool flag,
        tool <> CompleteTask ->
        let s' := with_tasks s (map (with_completed flag) (tasks s)) in
        candidates (wording_of tool) uid q s'
        = map (with_completed flag) (candidates (wording_of tool) uid q s)
        /\ forall task id,
             identify_task (wording_of tool) uid tid (Some q) s = inr (task, id) ->
             identify_task (wording_of tool) uid tid (Some q) s'
             = inr (with_completed flag task, id)).
Proof.
  intros Hq. split; [|split].
  - intros t Ht. by apply list_tasks_completed in Ht.
  - intros id Hid. by apply (complete_by_title_pending uid tid q).
  - intros tool flag Htool s'.
    assert (Hfetch : candidates (wording_of tool) uid q s'
                     = map (with_completed flag) (candidates (wording_of tool) uid q s)).
    { unfold candidates, s'. destruct tool; [done| |]; apply list_tasks_any_completion. }
    split; [exact Hfetch|].
    intros task id. rewrite !identify_by_title by done.
    rewrite Hfetch, match_by_title_any_completion.
    destruct (match_by_title (candidates (wording_of tool) uid q s) q)
      as [|t [|t' rest]]; try done.
    intros [= <- <-]. reflexivity.
Qed.

(** The completed task "Buy milk" is within reach of [delete_task] and
    [update_task] by title, exactly as it would be if it were pending. *)
Lemma C7_completion_scope_milk :
  identify_task delete_wording 7 None (Some "Buy milk") milk_done_session
  = inr (task_row 1 7 "Buy milk" true 10, 1)
  /\ identify_task update_wording 7 None (Some "Buy milk") milk_done_session
     = inr (task_row 1 7 "Buy milk" true 10, 1).
Proof.
  assert (Hq : "Buy milk" <> "") by discriminate.
  destruct (C7_completion_scope 7 None "Buy milk" milk_session Hq)
    as (_ & _ & Hany).
  split.
  - destruct (Hany DeleteTask (fun t => Task.id t =? 1)) as [_ H]; [discriminate|].
    apply (H (task_row 1 7 "Buy milk" false 10) 1). reflexivity.
  - destruct (Hany (UpdateTask None None None) (fun t => Task.id t =? 1)) as [_ H];
      [discriminate|].
    apply (H (task_row 1 7 "Buy milk" false 10) 1). reflexivity.
Defined.

(** C8. When the winning pass yields more than one task, the tool changes
    nothing and returns a failure envelope tagged "Multiple matches" whose
    message lists the matching tasks one per line, each as its id and
    title, between the heading and the closing hint. *)
Theorem C8_ambiguous_title (tool : MutatingTool) (uid : Z) (tid : option Z)
    (q : string) (s : Session) :
  let matching := match_by_title (candidates (wording_of tool) uid q s) q in
  q <> "" ->
  (1 < length matching)%nat ->
  let '(envelope, s') := call_tool tool uid tid (Some q) s in
  s' = s
  /\ envelope !! "success" = Some (PBool false)
  /\ envelope !! "error" = Some (PStr "Multiple matches")
  /\ envelope !! "message" =
       Some (PStr ("Found multiple tasks matching '" +:+ q +:+ "':" +:+ Text.nl
                   +:+ Text.join Text.nl
                         (map (fun t => "- ID " +:+ str_int (Task.id t) +:+ ": "
                                        +:+ Task.title t) matching)
                   +:+ Text.nl +:+ Text.nl +:+ use_id_suffix (wording_of tool))).
Proof.
  intros matching Hq Hmany.
  assert (Hid : identify_task (wording_of tool) uid tid (Some q) s
                = inl (multiple_matches (wording_of tool) q matching)).
  { rewrite identify_by_title by done. fold matching.
    destruct matching as [|t [|t' rest]]; simpl in Hmany; try lia. done. }
  rewrite (call_tool_early _ _ _ _ _ _ Hid). by repeat split.
Qed.

(** Asking [delete_task] for "milk" when "Buy milk" and "Buy milk today"
    are pending changes nothing and lists both. *)
Lemma C8_ambiguous_title_milk :
  snd (call_tool DeleteTask 7 None (Some "milk") milk_session) = milk_session
  /\ fst (call_tool DeleteTask 7 None (Some "milk") milk_session) !! "message" =
       Some (PStr ("Found multiple tasks matching 'milk':" +:+ Text.nl
                   +:+ "- ID 2: Buy milk today" +:+ Text.nl
                   +:+ "- ID 1: Buy milk" +:+ Text.nl +:+ Text.nl
                   +:+ "Please use the task ID to delete.")).
Proof.
  assert (Hq : "milk" <> "") by discriminate.
  pose proof (C8_ambiguous_title DeleteTask 7 None "milk" milk_session Hq) as H.
  destruct (call_tool DeleteTask 7 None (Some "milk") milk_session) as [envelope s'].
  destruct H as (Hs & _ & _ & Hm); [vm_compute; lia|].
  simpl. split; [exact Hs|]. rewrite Hm. reflexivity.
Defined.

(** ** Claims about identifying a task by id *)

(** C2, as amended.  With no title given, an id that matches no task makes
    the tool return the "Task not found" envelope for that id, and an id
    whose task belongs to another user makes it return the "Permission
    denied" envelope; neither changes the store, and the two envelopes
    differ in their error tag and in their message. *)
Theorem C2_absent_and_foreign_ids (tool : MutatingTool) (uid tid : Z) (s : Session) :
  tid <> 0 ->
  (get_task tid s = None ->
   call_tool tool uid (Some tid) None s = (not_found_by_id tid, s))
  /\ (forall t, get_task tid s = Some t -> Task.user_id t <> uid ->
                call_tool tool uid (Some tid) None s
                = (permission_denied_envelope (wording_of tool), s))
  /\ not_found_by_id tid !! "error" = Some (PStr "Task not found")
  /\ not_found_by_id tid !! "message"
     = Some (PStr ("Task with ID " +:+ str_int tid +:+ " not found"))
  /\ permission_denied_envelope (wording_of tool) !! "error"
     = Some (PStr "Permission denied")
  /\ permission_denied_envelope (wording_of tool) !! "message"
     = Some (PStr (permission_denied (wording_of tool)))
  /\ not_found_by_id tid !! "message"
     <> permission_denied_envelope (wording_of tool) !! "message".
Proof.
  intros Htid. repeat split.
  - intros Hnone. apply call_tool_early.
    rewrite identify_by_id by done. by rewrite Hnone.
  - intros t Hsome Hother. apply call_tool_early.
    rewrite identify_by_id by done. rewrite Hsome.
    by destruct (Z.eqb_spec (Task.user_id t) uid).
  - by destruct tool.
Qed.

(** User 7 asks [delete_task] for task 9, which does not exist, and for
    task 3, which belongs to user 8. *)
Lemma C2_absent_and_foreign_ids_father :
  fst (call_tool DeleteTask 7 (Some 9) None father_session) !! "message"
  = Some (PStr "Task with ID 9 not found")
  /\ fst (call_tool DeleteTask 7 (Some 3) None father_session) !! "message"
     = Some (PStr "You don't have permission to delete this task").
Proof.
  destruct (C2_absent_and_foreign_ids DeleteTask 7 9 father_session)
    as (Habsent & _); [discriminate|].
  destruct (C2_absent_and_foreign_ids DeleteTask 7 3 father_session)
    as (_ & Hforeign & _); [discriminate|].
  rewrite Habsent by reflexivity.
  rewrite (Hforeign (task_row 3 8 "Call my father" false 30))
    by (reflexivity || discriminate).
  split; reflexivity.
Defined.

(** C2, as stated, fails: task 3 belongs to user 8, and when user 7 asks
    to delete task 3 the message is not the "not found" message of an id
    that matches no task. *)
Lemma C2_foreign_id_is_told_apart :
  ~ (forall (tool : MutatingTool) (uid tid : Z) (s : Session) (t : Task.t),
        tid <> 0 -> get_task tid s = Some t -> Task.user_id t <> uid ->
        fst (call_tool tool uid (Some tid) None s) !! "message"
        = not_found_by_id tid !! "message").
Proof.
  intros Hclaim.
  specialize (Hclaim DeleteTask 7 3 father_session
                     (task_row 3 8 "Call my father" false 30)).
  discriminate Hclaim; (reflexivity || discriminate).
Qed.

(** ** Claims about the effects of a successful call *)

Lemma store_task_In (t' db_task : Task.t) (ts : list Task.t) :
  In db_task ts -> Task.id db_task = Task.id t' -> In t' (store_task t' ts).
Proof.
  intros Hin Hid. unfold store_task. apply in_map_iff.
  exists db_task. split; [|done]. rewrite Hid. by rewrite Z.eqb_refl.
Qed.

(** After a row is written back, every row with its id is that row. *)
Lemma store_task_rows (t' x : Task.t) (ts : list Task.t) :
  In x (store_task t' ts) -> Task.id x = Task.id t' -> x = t'.
Proof.
  unfold store_task. intros Hin Hid. apply in_map_iff in Hin as (y & Hy & _).
  destruct (Z.eqb_spec (Task.id y) (Task.id t')); congruence.
Qed.

Lemma get_task_stored (t' db_task : Task.t) (s s' : Session) :
  get_task (Task.id t') s = Some db_task ->
  tasks s' = store_task t' (tasks s) ->
  get_task (Task.id t') s' = Some t'.
Proof.
  unfold get_task. intros Hfind ->. revert Hfind.
  induction (tasks s) as [|x ts IH]; simpl; [done|].
  destruct (Z.eqb_spec (Task.id x) (Task.id t')) as [Heq|Hne].
  - intros _. by rewrite Z.eqb_refl.
  - intros Hfind. destruct (Z.eqb_spec (Task.id x) (Task.id t')); [done|]. by apply IH.
Qed.

Lemma apply_patch_id (task_data : TaskPatch) (now : Z) (t : Task.t) :
  Task.id (apply_patch task_data now t) = Task.id t.
Proof. reflexivity. Qed.

Lemma add_notification_recorded (uid tid : Z) (type title message : string) (s : Session) :
  recorded (notifications s) (add_notification uid tid type title message s)
           uid tid type message.
Proof. by eexists. Qed.

(** C9. Every successful mutating tool call records exactly one
    notification, for the acting user and the affected task, typed after
    the operation and quoting the task's title: the notifications after the
    call are those before it (for a deletion, those that did not belong to
    the deleted task) followed by that one.  [add_task] quotes the title of
    the task it created, [complete_task] and [update_task] the title of the
    row as stored after the change, and [delete_task] the title of the row
    as it was before the deletion, the row being gone afterwards. *)
Theorem C9_one_notification_per_success :
  (forall (p : AddTaskSchema.t) (s : Session),
      let '(envelope, s') := add_task p s in
      exists task,
        succeeded_on envelope (Task.id task)
        /\ In task (tasks s')
        /\ Task.title task = AddTaskSchema.title p
        /\ recorded (notifications s) s' (AddTaskSchema.user_id p) (Task.id task)
                    "task_created" (quoted "Created task" (Task.title task)))
  /\ (forall (tool : MutatingTool) (uid : Z) (tid : option Z) (q : option string)
             (s : Session) (id : Z),
         let '(envelope, s') := call_tool tool uid tid q s in
         succeeded_on envelope id ->
         match tool with
         | CompleteTask =>
             exists task,
               In task (tasks s') /\ Task.id task = id
               /\ recorded (notifications s) s' uid id
                           "task_completed" (quoted "Completed" (Task.title task))
         | UpdateTask _ _ _ =>
             exists task,
               In task (tasks s') /\ Task.id task = id
               /\ recorded (notifications s) s' uid id
                           "task_updated" (quoted "Updated" (Task.title task))
         | DeleteTask =>
             exists task,
               In task (tasks s) /\ Task.id task = id /\ Task.user_id task = uid
               /\ (forall t, In t (tasks s') -> Task.id t <> id)
               /\ recorded (List.filter (fun n => negb (Notification.task_id n =? id))
                                        (notifications s))
                           s' uid id
                           "task_deleted" (quoted "Deleted" (Task.title task))
         end).
Proof.
  split.
  - intros p s. simpl.
    eexists. split; [by split|].
    split; [apply in_or_app; right; by left|]. split; [done|]. by eexists.
  - intros tool uid tid q s id.
    destruct (call_tool tool uid tid q s) as [envelope s'] eqn:Hcall.
    intros Hok.
    assert (Hid : exists task, identify_task (wording_of tool) uid tid q s = inr (task, id)).
    { apply call_tool_succeeded. by rewrite Hcall. }
    destruct Hid as [task Hid].
    pose proof (identify_task_sound _ _ _ _ _ _ _ Hid) as (Hin & Hown & Htask & _).
    destruct tool as [| |new_title new_description new_priority].
    + apply complete_identified in Hid as (db_task & Hdb & Hres).
      rewrite Hres in Hcall. injection Hcall as <- <-.
      apply get_task_Some in Hdb as [Hdb_in Hdb_id]. subst id.
      eexists. split; [by apply (store_task_In _ db_task)|].
      split; [done|]. by eexists.
    + apply delete_identified in Hid as (_ & Hres).
      rewrite Hres in Hcall. injection Hcall as <- <-.
      destruct (get_task_present _ _ Hin) as [db_task Hdb]. rewrite Htask in Hdb.
      exists task. repeat split; try done.
      * rewrite (delete_task_found _ _ _ Hdb). simpl.
        intros t Ht. apply filter_In in Ht as [_ Ht]. lia.
      * rewrite (delete_task_found _ _ _ Hdb). by eexists.
    + apply (update_identified new_title new_description new_priority) in Hid
        as [(_ & _ & _ & Hres)|(db_task & Hdb & Hres)];
        rewrite Hres in Hcall; injection Hcall as <- <-; [by destruct Hok|].
      apply get_task_Some in Hdb as [Hdb_in Hdb_id]. subst id.
      eexists. split; [by apply (store_task_In _ db_task)|].
      split; [done|]. by eexists.
Qed.

(** Deleting "Call my father" by its title removes task 7 and the
    notification of its creation, and records [Deleted: "Call my father"]. *)
Lemma C9_one_notification_per_success_father :
  let '(envelope, s') :=
    call_tool DeleteTask 7 None (Some "Call my father") call_father_session in
  succeeded_on envelope 7
  /\ tasks s' = []
  /\ map Notification.message (notifications s')
     = [quoted "Deleted" "Call my father"].
Proof.
  destruct C9_one_notification_per_success as [_ H].
  specialize (H DeleteTask 7 None (Some "Call my father") call_father_session 7).
  destruct (call_tool DeleteTask 7 None (Some "Call my father") call_father_session)
    as [envelope s'] eqn:Hcall.
  assert (Hok : succeeded_on envelope 7).
  { vm_compute in Hcall. injection Hcall as <- _. by split. }
  destruct (H Hok) as (task & Hin & _ & _ & _ & (n & Hn & _ & _ & _ & Hmsg)).
  destruct Hin as [<-|[]].
  split; [exact Hok|]. split.
  - vm_compute in Hcall. by injection Hcall as _ <-.
  - rewrite Hn. simpl. by rewrite Hmsg.
Defined.

(** C10. Completing a task by its id is idempotent: for a task owned by
    the caller, whether or not it is already completed, the call succeeds
    and leaves the task completed, and the same call made again succeeds
    with the same envelope and leaves it completed.  Completing by title
    afterwards never acts on that task. *)
Theorem C10_complete_by_id_idempotent (uid tid : Z) (s : Session) (t : Task.t) :
  tid <> 0 ->
  get_task tid s = Some t ->
  Task.user_id t = uid ->
  let first := call_tool CompleteTask uid (Some tid) None s in
  let second := call_tool CompleteTask uid (Some tid) None (snd first) in
  succeeded_on (fst first) tid
  /\ fst first !! "completed" = Some (PBool true)
  /\ (exists t1, get_task tid (snd first) = Some t1 /\ Task.completed t1 = true)
  /\ fst second = fst first
  /\ (exists t2, get_task tid (snd second) = Some t2 /\ Task.completed t2 = true)
  /\ (forall q, q <> "" ->
        ~ succeeded_on (fst (call_tool CompleteTask uid None (Some q) (snd first))) tid).
Proof.
  intros Htid Hget Hown first second.
  set (done_patch := mkTaskPatch None None (Some true) None).
  assert (Hcall : forall s0 t0,
             get_task tid s0 = Some t0 -> Task.user_id t0 = uid ->
             call_tool CompleteTask uid (Some tid) None s0
             = (completed_envelope (apply_patch done_patch (clock s0) t0),
                notify_completed uid (apply_patch done_patch (clock s0) t0)
                  (with_tasks (snd (utcnow s0))
                     (store_task (apply_patch done_patch (clock s0) t0) (tasks s0))))).
  { intros s0 t0 Hget0 Hown0.
    assert (Hid : identify_task complete_wording uid (Some tid) None s0 = inr (t0, tid)).
    { rewrite identify_by_id by done. rewrite Hget0, Hown0. by rewrite Z.eqb_refl. }
    apply complete_identified in Hid as (db_task & Hdb & Hres).
    rewrite Hget0 in Hdb. by injection Hdb as <-. }
  assert (Hstored : forall s0 t0,
             get_task tid s0 = Some t0 -> Task.user_id t0 = uid ->
             get_task tid (snd (call_tool CompleteTask uid (Some tid) None s0))
             = Some (apply_patch done_patch (clock s0) t0)).
  { intros s0 t0 Hget0 Hown0. rewrite (Hcall s0 t0) by done.
    apply get_task_Some in Hget0 as Hid0. destruct Hid0 as [_ Hid0].
    clear Hcall Hget. subst tid.
    by apply (get_task_stored (apply_patch done_patch (clock s0) t0) t0 s0). }
  pose proof (Hstored s t Hget Hown) as Hget1. fold first in Hget1.
  pose proof (Hstored (snd first) _ Hget1 Hown) as Hget2. fold second in Hget2.
  apply get_task_Some in Hget as Hrow. destruct Hrow as [_ Hrow].
  assert (Hfirst : fst first = completed_envelope (apply_patch done_patch (clock s) t)).
  { unfold first. by rewrite (Hcall s t). }
  split; [split|].
  { by rewrite Hfirst. }
  { rewrite Hfirst, <- Hrow. reflexivity. }
  split; [by rewrite Hfirst|].
  split; [by eexists|].
  split.
  { unfold second. by rewrite (Hcall (snd first) _ Hget1 Hown), Hfirst. }
  split; [by eexists|].
  intros q Hq Hok.
  apply complete_by_title_pending in Hok as (x & Hin & Hid & _ & Hpending); [|done].
  unfold first in Hin. rewrite (Hcall s t) in Hin by done. simpl in Hin.
  apply store_task_rows in Hin; [|by rewrite Hid, apply_patch_id].
  by rewrite Hin in Hpending.
Qed.

(** Completing task 1, "Buy milk", by id twice, starting from the session
    in which it is already completed. *)
Lemma C10_complete_by_id_idempotent_milk :
  let first := call_tool CompleteTask 7 (Some 1) None milk_done_session in
  let second := call_tool CompleteTask 7 (Some 1) None (snd first) in
  succeeded_on (fst first) 1 /\ fst second = fst first.
Proof.
  destruct (C10_complete_by_id_idempotent 7 1 milk_done_session
              (task_row 1 7 "Buy milk" true 10)) as (H1 & _ & _ & H2 & _);
    [discriminate|reflexivity|reflexivity|].
  by split.
Defined.

(** ** Claims about the tool executor and the agent loop *)

Section AgentFacts.

Variable TOOLS : list (string * ToolConfig).
Variable SYSTEM_PROMPT : string.
Variable create_completion :
  list Message -> list (string * string * pyval) -> string + ResponseMessage.t.
Variable json_loads : string -> string + json_value.
Variable json_dumps : Envelope -> string.
Variable type_error : pyval -> string.

(** The executor returns an envelope on every path; an unknown tool, a
    validation failure and a handler that raises each give one whose
    [success] is false, the last two with a message. *)
Lemma execute_tool_failures (tool_name : string) (args : gmap string pyval)
    (s : Session) :
  (lookup_tool TOOLS tool_name = None ->
   _execute_tool TOOLS tool_name args s
   = (dict [("success", PBool false);
            ("error", PStr ("Unknown tool: " +:+ tool_name))], s))
  /\ (forall c e,
        lookup_tool TOOLS tool_name = Some c -> schema c args = inl e ->
        _execute_tool TOOLS tool_name args s
        = (dict [("success", PBool false); ("error", PStr e);
                 ("message", PStr ("Failed to execute " +:+ tool_name +:+ ": " +:+ e))],
           s))
  /\ (forall c p e s',
        lookup_tool TOOLS tool_name = Some c -> schema c args = inr p ->
        function c p s = (inl e, s') ->
        _execute_tool TOOLS tool_name args s
        = (dict [("success", PBool false); ("error", PStr e);
                 ("message", PStr ("Failed to execute " +:+ tool_name +:+ ": " +:+ e))],
           s'))
  /\ (forall c p result s',
        lookup_tool TOOLS tool_name = Some c -> schema c args = inr p ->
        function c p s = (inr result, s') ->
        _execute_tool TOOLS tool_name args s = (result, s')).
Proof.
  unfold _execute_tool. repeat split.
  - by intros ->.
  - intros c e -> He. by rewrite He.
  - intros c p e s' -> Hp Hf. by rewrite Hp, Hf.
  - intros c p result s' -> Hp Hf. by rewrite Hp, Hf.
Qed.

(** The tool loop only ever appends to the log. *)
Lemma run_tool_calls_appends (uid : Z) (calls : list ToolCall.t) :
  forall messages log s,
    exists added,
      snd (fst (run_tool_calls TOOLS json_loads json_dumps type_error
                               uid calls messages log s)) = log ++ added
      /\ (fst (fst (fst (run_tool_calls TOOLS json_loads json_dumps type_error
                                        uid calls messages log s))) = None ->
          length added = length calls).
Proof.
  induction calls as [|call rest IH]; intros messages log s; simpl.
  - exists []. by rewrite app_nil_r.
  - destruct (json_loads (ToolCall.arguments call)) as [e|[args|v]].
    + exists []. by rewrite app_nil_r.
    + destruct (_execute_tool TOOLS (ToolCall.name call) (inject_user_id uid args) s)
        as [result s'].
      edestruct IH as (added & Hlog & Hlen).
      eexists (_ :: added). rewrite Hlog, <- app_assoc. split; [done|].
      intros Hnone. simpl. f_equal. by apply Hlen.
    + exists []. by rewrite app_nil_r.
Qed.

(** Each call to the model is counted by [iterations], and there are at
    most [remaining] of them. *)
Lemma chat_loop_requests (remaining : nat) :
  forall uid iterations messages log s,
    let '(result, _, requests) :=
      chat_loop TOOLS create_completion json_loads json_dumps type_error
                remaining uid iterations messages log s in
    (length requests <= remaining)%nat
    /\ ChatResult.iterations result = iterations + Z.of_nat (length requests).
Proof.
  induction remaining as [|remaining IH]; intros uid iterations messages log s.
  - simpl. split; [done|lia].
  - simpl.
    destruct (create_completion messages (_build_tools_schema TOOLS)) as [e|response].
    { simpl. split; lia. }
    destruct (ResponseMessage.tool_calls response) as [[|call calls]|];
      try (simpl; split; lia).
    destruct (run_tool_calls _ _ _ _ uid (call :: calls) _ log s)
      as [[[[e|] messages'] log'] s']; [simpl; split; lia|].
    specialize (IH uid (iterations + 1) messages' log' s').
    destruct (chat_loop _ _ _ _ _ remaining uid (iterations + 1) messages' log' s')
      as [[result s''] requests].
    simpl. destruct IH as [IH1 IH2]. split; lia.
Qed.

(** After [n] tool rounds the log is the log before them followed by at
    least one entry per round. *)
Lemma tool_rounds_log (n : nat) :
  forall uid messages log s messages' log' s',
    tool_rounds TOOLS create_completion json_loads json_dumps type_error
                n uid messages log s = Some (messages', log', s') ->
    exists added, log' = log ++ added /\ (n <= length added)%nat.
Proof.
  induction n as [|n IH]; intros uid messages log s messages' log' s'; simpl.
  - intros [= <- <- <-]. exists []. by rewrite app_nil_r.
  - destruct (create_completion messages (_build_tools_schema TOOLS))
      as [e|response]; [done|].
    destruct (ResponseMessage.tool_calls response) as [[|call calls]|]; try done.
    pose proof (run_tool_calls_appends uid (call :: calls)
                  (messages ++ [AssistantCalls
                                  (default "" (ResponseMessage.content response))
                                  (call :: calls)]) log s) as (added1 & Hlog1 & Hlen1).
    destruct (run_tool_calls _ _ _ _ uid (call :: calls) _ log s)
      as [[[[e|] messages1] log1] s1]; [done|].
    simpl in Hlog1, Hlen1. intros Hrest.
    apply IH in Hrest as (added2 & -> & Hlen2). subst log1.
    exists (added1 ++ added2). rewrite app_assoc. split; [done|].
    rewrite length_app, Hlen1 by done. simpl. lia.
Qed.

(** When every one of the [remaining] rounds is a tool round, the loop
    runs out and returns the apology with the log of those rounds. *)
Lemma chat_loop_exhausted (remaining : nat) :
  forall uid iterations messages log s messages' log' s',
    tool_rounds TOOLS create_completion json_loads json_dumps type_error
                remaining uid messages log s = Some (messages', log', s') ->
    exists requests,
      chat_loop TOOLS create_completion json_loads json_dumps type_error
                remaining uid iterations messages log s
      = (ChatResult.mk max_iterations_apology (log_or_none log')
                       (Some "Max iterations reached")
                       (iterations + Z.of_nat remaining),
         s', requests)
      /\ length requests = remaining.
Proof.
  induction remaining as [|remaining IH];
    intros uid iterations messages log s messages' log' s'; simpl.
  - intros [= <- <- <-]. exists []. by rewrite Z.add_0_r.
  - destruct (create_completion messages (_build_tools_schema TOOLS))
      as [e|response]; [done|].
    destruct (ResponseMessage.tool_calls response) as [[|call calls]|]; try done.
    destruct (run_tool_calls _ _ _ _ uid (call :: calls) _ log s)
      as [[[[e|] messages1] log1] s1]; [done|].
    intros Hrest. apply (IH uid (iterations + 1)) in Hrest as (requests & -> & Hlen).
    exists (messages :: requests). split; [|by rewrite <- Hlen].
    by replace (iterations + Z.of_nat (S remaining))
      with (iterations + 1 + Z.of_nat remaining) by lia.
Qed.

End AgentFacts.

(** C3. For every tool invocation the model requests whose arguments
    parse to a JSON object: when the object has no [user_id], the
    authenticated user's id is inserted under that key; when it has one, the
    object is left as it is.  Either way no other key changes, and the
    resulting arguments are what the executor validates and runs and what
    the tool-call log records. *)
Theorem C3_user_id_injection (TOOLS : list (string * ToolConfig))
    (json_loads : string -> string + json_value) (json_dumps : Envelope -> string)
    (type_error : pyval -> string)
    (uid : Z) (call : ToolCall.t) (rest : list ToolCall.t) (args : gmap string pyval)
    (messages : list Message) (log : list LogEntry.t) (s : Session) :
  json_loads (ToolCall.arguments call) = inr (JObject args) ->
  let sent := inject_user_id uid args in
  let outcome := _execute_tool TOOLS (ToolCall.name call) sent s in
  (args !! "user_id" = None ->
   sent = <["user_id" := PInt uid]> args /\ sent !! "user_id" = Some (PInt uid))
  /\ (is_Some (args !! "user_id") -> sent = args)
  /\ (forall k, k <> "user_id" -> sent !! k = args !! k)
  /\ (forall c e, lookup_tool TOOLS (ToolCall.name call) = Some c ->
                  schema c sent = inl e ->
                  fst outcome !! "success" = Some (PBool false) /\ snd outcome = s)
  /\ run_tool_calls TOOLS json_loads json_dumps type_error uid (call :: rest)
                    messages log s
     = run_tool_calls TOOLS json_loads json_dumps type_error uid rest
         (messages ++ [ToolResult (ToolCall.id call) (ToolCall.name call)
                                  (json_dumps (fst outcome))])
         (log ++ [LogEntry.mk (ToolCall.name call) sent (fst outcome)])
         (snd outcome).
Proof.
  intros Hloads sent outcome. unfold sent, inject_user_id.
  split; [|split; [|split; [|split]]].
  - intros Habsent. rewrite Habsent. split; [done|]. apply lookup_insert_eq.
  - intros [v Hv]. by rewrite Hv.
  - intros k Hk. destruct (args !! "user_id"); [done|]. by apply lookup_insert_ne.
  - intros c e Hc He.
    destruct (execute_tool_failures TOOLS (ToolCall.name call) sent s)
      as (_ & Hinvalid & _).
    unfold outcome. by rewrite (Hinvalid c e Hc He).
  - simpl. rewrite Hloads. fold sent. fold outcome. by destruct outcome.
Qed.

(** User 7's exchange: a call without [user_id] is run for user 7, and a
    call whose arguments name user 8 is run with that value. *)
Lemma C3_user_id_injection_two_calls :
  map LogEntry.arguments
      (snd (fst (run_tool_calls plain_TOOLS two_text_loads constant_dumps
                   plain_type_error 7
                   [ToolCall.mk "call_1" "function" "list_tasks" "{}";
                    ToolCall.mk "call_2" "function" "list_tasks" names_user_8]
                   [] [] milk_session)))
  = [ {["user_id" := PInt 7]}; {["user_id" := PInt 8]} ].
Proof.
  destruct (C3_user_id_injection plain_TOOLS two_text_loads constant_dumps
              plain_type_error 7
              (ToolCall.mk "call_1" "function" "list_tasks" "{}")
              [ToolCall.mk "call_2" "function" "list_tasks" names_user_8]
              ∅ [] [] milk_session eq_refl) as (_ & _ & _ & _ & ->).
  match goal with
  | |- context [run_tool_calls _ _ _ _ _ _ ?m ?l ?s] =>
      destruct (C3_user_id_injection plain_TOOLS two_text_loads constant_dumps
                  plain_type_error 7
                  (ToolCall.mk "call_2" "function" "list_tasks" names_user_8)
                  [] {["user_id" := PInt 8]} m l s eq_refl) as (_ & _ & _ & _ & ->)
  end.
  reflexivity.
Defined.

(** Every registered tool returns an envelope that has a success flag and
    a message. *)
Lemma mutating_tool_envelope (tool : MutatingTool) (uid : Z) (tid : option Z)
    (q : option string) (s : Session) :
  is_Some (fst (call_tool tool uid tid q s) !! "success")
  /\ is_Some (fst (call_tool tool uid tid q s) !! "message").
Proof.
  destruct (identify_task (wording_of tool) uid tid q s) as [envelope|[task id]] eqn:E.
  - rewrite (call_tool_early _ _ _ _ _ _ E). simpl.
    apply identify_task_early in E as [-> ?]. by split.
  - destruct tool as [| |new_title new_description new_priority].
    + apply complete_identified in E as (? & _ & ->). by split.
    + apply delete_identified in E as (_ & ->). by split.
    + apply (update_identified new_title new_description new_priority) in E
        as [(_ & _ & _ & ->)|(? & _ & ->)]; by split.
Qed.

#[local] Arguments String.eqb : simpl never.
#[local] Arguments add_task : simpl never.
#[local] Arguments list_tasks_tool : simpl never.
#[local] Arguments complete_task_tool : simpl never.
#[local] Arguments delete_task_tool : simpl never.
#[local] Arguments update_task_tool : simpl never.

Lemma add_task_envelope (p : AddTaskSchema.t) (s : Session) :
  is_Some (fst (add_task p s) !! "success")
  /\ is_Some (fst (add_task p s) !! "message").
Proof. by split. Qed.

Lemma list_tasks_tool_envelope (isoformat : Z -> string) (p : ListTasksSchema.t)
    (s : Session) :
  is_Some (fst (list_tasks_tool isoformat p s) !! "success")
  /\ is_Some (fst (list_tasks_tool isoformat p s) !! "message").
Proof. by split. Qed.

Lemma registered_tool_envelope (isoformat : Z -> string)
    (coerce_int : pyval -> option Z) (coerce_str : pyval -> option string)
    (validation_error : string -> gmap string pyval -> string)
    (tool_name : string) (args : gmap string pyval) (s : Session) :
  let registry := TOOLS isoformat coerce_int coerce_str validation_error in
  is_Some (lookup_tool registry tool_name) ->
  is_Some (fst (_execute_tool registry tool_name args s) !! "success")
  /\ is_Some (fst (_execute_tool registry tool_name args s) !! "message").
Proof.
  intros registry. unfold registry, _execute_tool, lookup_tool, TOOLS. simpl.
  destruct (String.eqb "add_task" tool_name).
  { intros _. simpl.
    destruct (AddTaskSchema_parse coerce_int coerce_str validation_error args)
      as [e|p]; simpl; [by split|].
    pose proof (add_task_envelope p s) as H.
    by destruct (add_task p s). }
  destruct (String.eqb "list_tasks" tool_name).
  { intros _. simpl.
    destruct (ListTasksSchema_parse coerce_int validation_error args)
      as [e|p]; simpl; [by split|].
    pose proof (list_tasks_tool_envelope isoformat p s) as H.
    by destruct (list_tasks_tool isoformat p s). }
  destruct (String.eqb "complete_task" tool_name).
  { intros _. simpl.
    destruct (CompleteTaskSchema_parse coerce_int coerce_str validation_error args)
      as [e|[uid tid q]]; simpl; [by split|].
    pose proof (mutating_tool_envelope CompleteTask uid tid q s) as H. simpl in H.
    unfold returning. by destruct (complete_task_tool _ s). }
  destruct (String.eqb "delete_task" tool_name).
  { intros _. simpl.
    destruct (DeleteTaskSchema_parse coerce_int coerce_str validation_error args)
      as [e|[uid tid q]]; simpl; [by split|].
    pose proof (mutating_tool_envelope DeleteTask uid tid q s) as H. simpl in H.
    unfold returning. by destruct (delete_task_tool _ s). }
  destruct (String.eqb "update_task" tool_name).
  { intros _. simpl.
    destruct (UpdateTaskSchema_parse coerce_int coerce_str validation_error args)
      as [e|[uid tid q t d p]]; simpl; [by split|].
    pose proof (mutating_tool_envelope (UpdateTask t d p) uid tid q s) as H. simpl in H.
    unfold returning. by destruct (update_task_tool _ s). }
  simpl. by intros [? ?].
Qed.

(** C4, at the input where the code departs from it: asking the executor
    for a tool that is not registered gives a failure envelope that has an
    [error] text and no [message]. *)
Theorem C4_unknown_tool_has_no_message (isoformat : Z -> string)
    (coerce_int : pyval -> option Z) (coerce_str : pyval -> option string)
    (validation_error : string -> gmap string pyval -> string) (s : Session) :
  let envelope :=
    fst (_execute_tool (TOOLS isoformat coerce_int coerce_str validation_error)
                       "frobnicate" ∅ s) in
  envelope !! "success" = Some (PBool false)
  /\ envelope !! "error" = Some (PStr "Unknown tool: frobnicate")
  /\ envelope !! "message" = None.
Proof. by repeat split. Qed.

(** A handler that raises is turned into a failure envelope with a
    message. *)
Lemma raising_handler_is_caught (s : Session) :
  _execute_tool raising_TOOLS "boom" ∅ s
  = (dict [("success", PBool false); ("error", PStr "store unavailable");
           ("message", PStr "Failed to execute boom: store unavailable")], s).
Proof. reflexivity. Qed.

(** C5. The agent loop calls the model at most [max_iterations] times, and
    [iterations] counts the calls.  When every one of the [max_iterations]
    rounds is a round in which the model requested tools and they were
    carried out, the loop returns the fixed apology, tagged "Max
    iterations reached", with the tool-call log of those rounds in order
    (at least one entry per round), having called the model exactly
    [max_iterations] times. *)
Theorem C5_iteration_cap (TOOLS : list (string * ToolConfig)) (SYSTEM_PROMPT : string)
    (create_completion :
       list Message -> list (string * string * pyval) -> string + ResponseMessage.t)
    (json_loads : string -> string + json_value) (json_dumps : Envelope -> string)
    (type_error : pyval -> string)
    (user_message : string) (uid : Z) (history : list ContextMessage.t)
    (s : Session) (max_iterations : Z) :
  let '(result, s', requests) :=
    chat TOOLS SYSTEM_PROMPT create_completion json_loads json_dumps type_error
         user_message uid history s max_iterations in
  (length requests <= Z.to_nat max_iterations)%nat
  /\ ChatResult.iterations result = Z.of_nat (length requests)
  /\ ChatResult.iterations result <= Z.max 0 max_iterations
  /\ forall messages' log s'',
       tool_rounds TOOLS create_completion json_loads json_dumps type_error
                   (Z.to_nat max_iterations) uid
                   (_build_messages SYSTEM_PROMPT history user_message) [] s
       = Some (messages', log, s'') ->
       result = ChatResult.mk max_iterations_apology (log_or_none log)
                              (Some "Max iterations reached") (Z.max 0 max_iterations)
       /\ s' = s''
       /\ length requests = Z.to_nat max_iterations
       /\ (Z.to_nat max_iterations <= length log)%nat
       /\ (0 < max_iterations -> ChatResult.tool_calls result = Some log).
Proof.
  unfold chat.
  pose proof (chat_loop_requests TOOLS create_completion json_loads json_dumps
                type_error (Z.to_nat max_iterations) uid 0
                (_build_messages SYSTEM_PROMPT history user_message) [] s) as Hbound.
  destruct (chat_loop _ _ _ _ _ (Z.to_nat max_iterations) uid 0 _ [] s)
    as [[result s'] requests] eqn:Hloop.
  destruct Hbound as [Hle Hcount]. split; [done|]. split; [lia|]. split; [lia|].
  intros messages' log s'' Hrounds.
  pose proof (tool_rounds_log _ _ _ _ _ _ _ _ _ _ _ _ _ Hrounds) as (added & Hlog & Hlen).
  simpl in Hlog. subst added.
  apply (chat_loop_exhausted _ _ _ _ _ _ uid 0) in Hrounds as (requests' & Hres & Hreq).
  rewrite Hres in Hloop. injection Hloop as <- <- <-.
  split; [f_equal; lia|]. split; [done|]. split; [done|]. split; [done|].
  intros Hpos. simpl. destruct log; [simpl in Hlen; lia|done].
Qed.

(** With the cap at its default of 5 and a model that asks for a tool on
    every call, the loop stops after 5 calls with the apology and the 5 log
    entries. *)
Lemma C5_iteration_cap_default :
  let '(result, _, requests) :=
    chat plain_TOOLS "" always_list_tasks two_text_loads constant_dumps
         plain_type_error "show my tasks" 7 [] milk_session default_max_iterations in
  ChatResult.assistant_message result = max_iterations_apology
  /\ length <$> ChatResult.tool_calls result = Some 5%nat
  /\ map LogEntry.tool (default [] (ChatResult.tool_calls result))
     = ["list_tasks"; "list_tasks"; "list_tasks"; "list_tasks"; "list_tasks"]
  /\ length requests = 5%nat.
Proof.
  pose proof (C5_iteration_cap plain_TOOLS "" always_list_tasks two_text_loads
                constant_dumps plain_type_error "show my tasks" 7 [] milk_session
                default_max_iterations) as H.
  destruct (chat plain_TOOLS "" always_list_tasks two_text_loads constant_dumps
              plain_type_error "show my tasks" 7 [] milk_session default_max_iterations)
    as [[result s'] requests].
  destruct H as (_ & _ & _ & H).
  edestruct H as (-> & _ & Hreq & _ & _).
  { vm_compute. reflexivity. }
  split; [reflexivity|]. split; [reflexivity|]. split; [reflexivity|]. exact Hreq.
Defined.
